(** * app.py: history store, classifier adapter and recommendation composer

    A shallow embedding of the functions of [app.py].  Python objects that
    travel through [json] are values of the type [json]; the file system,
    the clock, the two cloud endpoints, the text-generation pipeline and
    the page are fields of a [world] that every function threads through
    the monad [M]; a Python exception is the [Raise] outcome. *)

From Stdlib Require Import ZArith String Ascii List Lia DecimalString SpecFloat.
From Stdlib Require DecimalNat DecimalFacts.
From stdpp Require Import gmap strings list.

Open Scope string_scope.

(** ** Python values *)

(** The objects [json.load] builds and [json.dump] accepts: [None], [bool],
    [int], [float], [str], [list], and [dict] with [str] keys.  A [dict]
    keeps its items in insertion order, which is the order [json.dump]
    prints. *)
#[local] Set Warnings "-register-all".
Inductive json : Type :=
| JNull
| JBool (b : bool)
| JNum (z : Z)
| JFloat (f : spec_float)
| JStr (s : string)
| JArr (l : list json)
| JObj (o : list (string * json)).

Inductive exn : Type :=
| JSONDecodeError
| KeyError (k : string)
| IndexError
| TypeError
| AttributeError
| OSError
| ConnectionError
| RuntimeError
| FileNotFoundError
| NotADirectoryError
| IsADirectoryError
| ValueError
| UnicodeDecodeError
| RecursionError.

Inductive result (A : Type) : Type :=
| Ok (a : A)
| Raise (e : exn).
Arguments Ok {A} a.
Arguments Raise {A} e.

(** What the functions use of the Python runtime and have no source for
    here: the [json] codec, and [format] of an object inside an f-string.
    [json_loads] answers [None] where Python raises [JSONDecodeError]. *)
Class Runtime : Type := {
  json_dumps : nat -> json -> string;
  json_loads : string -> option json;
  json_loads_dumps : forall indent v, json_loads (json_dumps indent v) = Some v;
  py_format : json -> string;
  py_format_str : forall s, py_format (JStr s) = s
}.

(** ** Operations on Python values *)

(** [key in d] for a dict [d]. *)
Fixpoint dict_get (k : string) (o : list (string * json)) : option json :=
  match o with
  | [] => None
  | (k', v) :: o' => if String.eqb k k' then Some v else dict_get k o'
  end.

Definition dict_keys (o : list (string * json)) : list string := map fst o.

(** [bool(v)], as [if not v] tests it. *)
Definition truthy (v : json) : bool :=
  match v with
  | JNull => false
  | JBool b => b
  | JNum z => negb (Z.eqb z 0)
  | JFloat f => match f with S754_zero _ => false | _ => true end
  | JStr s => negb (String.eqb s "")
  | JArr l => match l with [] => false | _ => true end
  | JObj o => match o with [] => false | _ => true end
  end.

(** [v[k]] with a string key [k]. *)
Definition getitem_key (v : json) (k : string) : result json :=
  match v with
  | JObj o => match dict_get k o with Some x => Ok x | None => Raise (KeyError k) end
  | _ => Raise TypeError
  end.

(** The number of bytes of the UTF-8 character that starts with [a]. *)
Definition utf8_width (a : ascii) : nat :=
  let n := nat_of_ascii a in
  if Nat.ltb n 192 then 1 else if Nat.ltb n 224 then 2
  else if Nat.ltb n 240 then 3 else 4.

(** [v[0]]. *)
Definition getitem_0 (v : json) : result json :=
  match v with
  | JArr (x :: _) => Ok x
  | JArr [] => Raise IndexError
  | JStr (String a s) => Ok (JStr (String.substring 0 (utf8_width a) (String a s)))
  | JStr EmptyString => Raise IndexError
  | JObj _ => Raise (KeyError "0")
  | _ => Raise TypeError
  end.

Definition is_str (k : string) (v : json) : bool :=
  match v with JStr s => String.eqb s k | _ => false end.

Definition is_substring (k s : string) : bool :=
  match String.index 0 k s with Some _ => true | None => false end.

(** [k in v] with a string [k]: a key of a dict, an element of a list, a
    substring of a string. *)
Definition contains (k : string) (v : json) : result bool :=
  match v with
  | JObj o => Ok (match dict_get k o with Some _ => true | None => false end)
  | JArr l => Ok (existsb (is_str k) l)
  | JStr s => Ok (is_substring k s)
  | _ => Raise TypeError
  end.

(** [len(v) > 0]. *)
Definition len_positive (v : json) : result bool :=
  match v with
  | JObj o => Ok (match o with [] => false | _ => true end)
  | JArr l => Ok (match l with [] => false | _ => true end)
  | JStr s => Ok (negb (String.eqb s ""))
  | _ => Raise TypeError
  end.

(** [v.append(x)]: only a list has the method. *)
Definition list_append (v x : json) : result json :=
  match v with
  | JArr l => Ok (JArr (l ++ [x]))
  | _ => Raise AttributeError
  end.

(** ** The clock *)

Record datetime : Type := {
  year : nat; month : nat; day : nat; hour : nat; minute : nat; second : nat
}.

Definition dec (n : nat) : string := NilZero.string_of_uint (Nat.to_uint n).

Definition pad2 (n : nat) : string :=
  if Nat.ltb n 10 then "0" +:+ dec n else dec n.

(** [t.strftime("%Y-%m-%d %H:%M:%S")]. *)
Definition strftime (t : datetime) : string :=
  dec (year t) +:+ "-" +:+ pad2 (month t) +:+ "-" +:+ pad2 (day t) +:+ " "
  +:+ pad2 (hour t) +:+ ":" +:+ pad2 (minute t) +:+ ":" +:+ pad2 (second t).

(** ** The world *)

Record response : Type := { status_code : Z; text : string }.

(** What a run leaves behind outside the file system, in order. *)
Inductive event : Type :=
| EvGet (url : string)
| EvPost (url : string) (image_data : string)
| EvGenerate (prompt : string) (max_length : Z) (num_return_sequences : Z)
| EvStError (msg : string)
| EvStSuccess (msg : string)
| EvStMarkdown (msg : string)
| EvStWrite (v : json).

(** Everything outside the process.  [files] maps each path that exists to
    the text of the file (the directory [history] is made at start-up,
    lines 23-24, and paths are looked up as they are written);
    [http_get], [http_post] and [text_model] are what the token endpoint,
    the classification endpoint and the loaded pipeline answer. *)
Record world : Type := {
  files : gmap string string;
  clock : datetime;
  API_KEY : string;
  SECRET_KEY : string;
  http_get : string -> result response;
  http_post : string -> string -> result response;
  text_model : string -> Z -> Z -> result json;
  events : list event
}.

Definition is_post (e : event) : bool :=
  match e with EvPost _ _ => true | _ => false end.

Definition is_generate (e : event) : bool :=
  match e with EvGenerate _ _ _ => true | _ => false end.

(** The requests a run posted, and the calls it made to the text model. *)
Definition posts (l : list event) : list event := List.filter is_post l.
Definition generations (l : list event) : list event := List.filter is_generate l.

Definition set_files (fs : gmap string string) (w : world) : world :=
  {| files := fs; clock := clock w; API_KEY := API_KEY w;
     SECRET_KEY := SECRET_KEY w; http_get := http_get w;
     http_post := http_post w; text_model := text_model w;
     events := events w |}.

Definition set_clock (t : datetime) (w : world) : world :=
  {| files := files w; clock := t; API_KEY := API_KEY w;
     SECRET_KEY := SECRET_KEY w; http_get := http_get w;
     http_post := http_post w; text_model := text_model w;
     events := events w |}.

Definition log (e : event) (w : world) : world :=
  {| files := files w; clock := clock w; API_KEY := API_KEY w;
     SECRET_KEY := SECRET_KEY w; http_get := http_get w;
     http_post := http_post w; text_model := text_model w;
     events := events w ++ [e] |}.

(** ** The monad of the functions: state and exceptions *)

Definition M (A : Type) : Type := world -> result A * world.

Definition ret {A} (a : A) : M A := fun w => (Ok a, w).

Definition bind {A B} (m : M A) (f : A -> M B) : M B :=
  fun w => match m w with
           | (Ok a, w') => f a w'
           | (Raise e, w') => (Raise e, w')
           end.

Definition lift {A} (r : result A) : M A := fun w => (r, w).

Definition ask {A} (f : world -> A) : M A := fun w => (Ok (f w), w).

Definition emit (e : event) : M unit := fun w => (Ok tt, log e w).

Notation "x <- m ;; k" := (bind m (fun x => k))
  (at level 100, m at next level, right associativity).
Notation "m ;;; k" := (bind m (fun _ => k))
  (at level 100, right associativity).

(** [os.path.exists], and reading and writing a whole text file. *)
Definition path_exists (filename : string) : M bool :=
  ask (fun w => match files w !! filename with Some _ => true | None => false end).

Definition read_text (filename : string) : M string :=
  fun w => match files w !! filename with
           | Some s => (Ok s, w)
           | None => (Raise OSError, w)
           end.

Definition write_text (filename : string) (s : string) : M unit :=
  fun w => (Ok tt, set_files (<[filename := s]> (files w)) w).

(** [requests.get(url)] and [requests.post(url, headers=..., data={'image': ...})]:
    the request leaves the process, then the endpoint answers or the
    transport raises. *)
Definition requests_get (url : string) : M response :=
  fun w => (http_get w url, log (EvGet url) w).

Definition requests_post (url image_data : string) : M response :=
  fun w => (http_post w url image_data, log (EvPost url image_data) w).

(** [model(prompt, max_length=..., num_return_sequences=...)] on a
    text-generation pipeline. *)
Definition call_model (model : string -> Z -> Z -> result json)
    (prompt : string) (max_length n : Z) : M json :=
  fun w => (model prompt max_length n, log (EvGenerate prompt max_length n) w).

(** ** Images *)

(** A PIL image, as far as [classify_image] looks at it: the bytes that
    [image.save(buffered, format="JPEG")] leaves in the buffer, or the
    exception the encoder raises. *)
Record image : Type := { save_jpeg : result string }.

Definition b64_alphabet : string :=
  "ABCDEFGHIJKLMNOPQRSTUVWXYZabcdefghijklmnopqrstuvwxyz0123456789+/".

Definition b64_char (i : N) : ascii :=
  match String.get (N.to_nat i) b64_alphabet with
  | Some c => c
  | None => "="%char
  end.

(** [base64.b64encode(bytes).decode()]. *)
Fixpoint b64encode (s : string) : string :=
  match s with
  | EmptyString => EmptyString
  | String a EmptyString =>
      let n := (N_of_ascii a * 65536)%N in
      String (b64_char (n / 262144)) (String (b64_char ((n / 4096) mod 64)) "==")
  | String a (String b EmptyString) =>
      let n := (N_of_ascii a * 65536 + N_of_ascii b * 256)%N in
      String (b64_char (n / 262144)) (String (b64_char ((n / 4096) mod 64))
        (String (b64_char ((n / 64) mod 64)) "="))
  | String a (String b (String c rest)) =>
      let n := (N_of_ascii a * 65536 + N_of_ascii b * 256 + N_of_ascii c)%N in
      String (b64_char (n / 262144)) (String (b64_char ((n / 4096) mod 64))
        (String (b64_char ((n / 64) mod 64)) (String (b64_char (n mod 64))
          (b64encode rest))))
  end.

Section App.
Context `{Runtime}.

Definition response_json (r : response) : result json :=
  match json_loads (text r) with
  | Some v => Ok v
  | None => Raise JSONDecodeError
  end.

(** ** Classifier adapter and composer (app.py, lines 33-81) *)

(** [pipeline("text-generation", model="gpt2")], loaded once and kept by
    [st.cache_resource]. *)
Definition load_text_model : M (string -> Z -> Z -> result json) :=
  ask text_model.

Definition token_url (key secret : string) : string :=
  "https://aip.baidubce.com/oauth/2.0/token?grant_type=client_credentials&client_id="
  +:+ key +:+ "&client_secret=" +:+ secret.

(** The body of [get_access_token].  [st.cache_data] keeps what it returned
    for the next calls; this is the run on a cache miss, and
    [cached_get_access_token] below is the function behind its cache. *)
Definition get_access_token : M json :=
  key <- ask API_KEY ;;
  secret <- ask SECRET_KEY ;;
  let url := token_url key secret in
  response <- requests_get url ;;
  if Z.eqb (status_code response) 200 then
    body <- lift (response_json response) ;;
    lift (getitem_key body "access_token")
  else
    emit (EvStError "获取百度API令牌失败，请检查密钥") ;;;
    ret JNull.

Definition outfit_prompt (occasion weather : string) (style : option string) : string :=
  "为" +:+ weather +:+ "天气的" +:+ occasion +:+ "场合推荐一套"
  +:+ match style with
      | Some s => if truthy (JStr s) then s else ""
      | None => ""
      end
  +:+ "风格的穿搭：".

Definition generate_outfit (occasion weather : string) (style : option string) : M json :=
  model <- load_text_model ;;
  let prompt := outfit_prompt occasion weather style in
  response <- call_model model prompt 150 1 ;;
  first <- lift (getitem_0 response) ;;
  lift (getitem_key first "generated_text").

Definition classify_url (access_token : json) : string :=
  "https://aip.baidubce.com/rest/2.0/image-classify/v2/advanced_general?access_token="
  +:+ py_format access_token.

Definition classify_image (img : image) : M json :=
  access_token <- get_access_token ;;
  if negb (truthy access_token) then ret (JStr "认证失败")
  else
    jpeg <- lift (save_jpeg img) ;;
    let img_base64 := b64encode jpeg in
    let url := classify_url access_token in
    response <- requests_post url img_base64 ;;
    if Z.eqb (status_code response) 200 then
      result <- lift (response_json response) ;;
      has <- lift (contains "result" result) ;;
      nonempty <- (if has : bool
                   then r <- lift (getitem_key result "result") ;; lift (len_positive r)
                   else ret false) ;;
      if nonempty : bool then
        r <- lift (getitem_key result "result") ;;
        first <- lift (getitem_0 r) ;;
        lift (getitem_key first "keyword")
      else ret (JStr "未识别出服装类型")
    else ret (JStr ("API调用失败: " +:+ text response)).

Definition image_prompt (weather occasion : string) (clothing_type : json) : string :=
  "为" +:+ weather +:+ "天气的" +:+ occasion +:+ "场合，推荐一套包含"
  +:+ py_format clothing_type +:+ "的穿搭：".

Definition recommend_outfit_by_image (img : image) (weather occasion : string)
    : M (json * json) :=
  clothing_type <- classify_image img ;;
  model <- load_text_model ;;
  let prompt := image_prompt weather occasion clothing_type in
  response <- call_model model prompt 150 1 ;;
  first <- lift (getitem_0 response) ;;
  text <- lift (getitem_key first "generated_text") ;;
  ret (text, clothing_type).

(** ** History store (app.py, lines 84-126)

    Over the map of files of [world]: each path string stands for a file
    of its own, whose text is what was written.  This is the store under
    the identifiers that the page makes, which are decimal numbers; what
    [open], [os.path.exists] and [json] do with other identifiers and
    other bytes is in the section on the disk below. *)

Definition history_filename (user_id : string) : string :=
  "history/" +:+ user_id +:+ "_history.json".

Definition history_entry (user_id occasion weather style : string)
    (recommendation clothing_type : json) (timestamp : string) : json :=
  JObj [ ("user_id", JStr user_id);
         ("occasion", JStr occasion);
         ("weather", JStr weather);
         ("style", JStr style);
         ("recommendation", recommendation);
         ("clothing_type", clothing_type);
         ("timestamp", JStr timestamp) ].

(** [json.load(f)] under [except json.JSONDecodeError], with the value the
    handler puts in its place. *)
Definition json_load_or_empty (filename : string) : M json :=
  s <- read_text filename ;;
  ret (match json_loads s with Some v => v | None => JArr [] end).

Definition save_history (user_id occasion weather style : string)
    (recommendation clothing_type : json) : M bool :=
  now <- ask clock ;;
  let entry := history_entry user_id occasion weather style
                 recommendation clothing_type (strftime now) in
  let filename := history_filename user_id in
  there <- path_exists filename ;;
  data <- (if there : bool then json_load_or_empty filename else ret (JArr [])) ;;
  data' <- lift (list_append data entry) ;;
  write_text filename (json_dumps 2 data') ;;;
  ret true.

(** The default of the last parameter: [clothing_type=None]. *)
Definition save_history_default (user_id occasion weather style : string)
    (recommendation : json) : M bool :=
  save_history user_id occasion weather style recommendation JNull.

Definition load_history (user_id : string) : M json :=
  let filename := history_filename user_id in
  there <- path_exists filename ;;
  if there : bool then json_load_or_empty filename else ret (JArr []).

(** ** The two buttons (app.py, lines 164-172 and 190-198) *)

(** What the page does when a button is pressed; the spinner around the
    work is left out. *)

Definition on_text_recommend (user_id occasion weather selected_style : string) : M bool :=
  recommendation <- generate_outfit occasion weather (Some selected_style) ;;
  emit (EvStSuccess "推荐生成成功！") ;;;
  emit (EvStMarkdown "### 推荐穿搭方案：") ;;;
  emit (EvStWrite recommendation) ;;;
  save_history_default user_id occasion weather selected_style recommendation.

Definition on_image_recommend (user_id : string) (img : image)
    (occasion_img weather_img selected_style : string) : M bool :=
  p <- recommend_outfit_by_image img weather_img occasion_img ;;
  let '(recommendation, clothing_type) := p in
  emit (EvStSuccess "推荐生成成功！") ;;;
  emit (EvStMarkdown ("### 基于 " +:+ py_format clothing_type +:+ " 的穿搭方案：")) ;;;
  emit (EvStWrite recommendation) ;;;
  save_history user_id occasion_img weather_img selected_style recommendation clothing_type.

End App.

(** ** Words for the statements *)

Section Statements.
Context `{Runtime}.

(** The Python object that the user's history file stands for: what
    [json.load] reads from it, and the empty list when the file is absent
    or is not JSON. *)
Definition stored_history (user_id : string) (w : world) : json :=
  match files w !! history_filename user_id with
  | Some s => match json_loads s with Some v => v | None => JArr [] end
  | None => JArr []
  end.

Definition write_history (user_id : string) (v : json) (w : world) : world :=
  set_files (<[history_filename user_id := json_dumps 2 v]> (files w)) w.

Definition entry_at (w : world) (user_id occasion weather style : string)
    (recommendation clothing_type : json) : json :=
  history_entry user_id occasion weather style recommendation clothing_type
    (strftime (clock w)).

Definition entry_fields : list string :=
  ["user_id"; "occasion"; "weather"; "style"; "recommendation";
   "clothing_type"; "timestamp"].

(** The token endpoint answers [r] to the request of [get_access_token]. *)
Definition token_answer (w : world) (r : response) : Prop :=
  http_get w (token_url (API_KEY w) (SECRET_KEY w)) = Ok r.

(** The token endpoint grants a token, the picture encodes, and the
    classification endpoint answers [r] to the request that
    [classify_image] then posts. *)
Definition classifier_answer (w : world) (img : image) (r : response) : Prop :=
  exists rt body tok jpeg,
    token_answer w rt /\ status_code rt = 200%Z /\
    json_loads (text rt) = Some body /\
    getitem_key body "access_token" = Ok tok /\ truthy tok = true /\
    save_jpeg img = Ok jpeg /\
    http_post w (classify_url tok) (b64encode jpeg) = Ok r.

End Statements.

(** ** The user identifier (app.py, lines 133-134) *)

(** [str(hash(str(datetime.now())) % 1000000)], with [h] the hash. *)
Definition new_user_id (h : Z) : string := dec (Z.to_nat (h mod 1000000)).

(** [st.session_state.get("user_id", ...)]: the identifier the session
    already holds, or a new one. *)
Definition session_user_id (session_state : gmap string string) (h : Z) : string :=
  match session_state !! "user_id" with
  | Some u => u
  | None => new_user_id h
  end.

Definition is_digit (a : ascii) : bool :=
  let n := nat_of_ascii a in (Nat.leb 48 n && Nat.leb n 57)%bool.

Fixpoint all_digits (s : string) : bool :=
  match s with
  | EmptyString => true
  | String a r => (is_digit a && all_digits r)%bool
  end.

(** ** The history tab (app.py, lines 200-215) *)

(** What the tab puts on the page, in the order of the calls. *)
Inductive widget : Type :=
| StExpander (label : string)
| StMarkdown (body : string)
| StWrite (v : json)
| StInfo (body : string).

(** Drawing on the page, with exceptions: what is drawn before an
    exception stays drawn. *)
Definition Page (A : Type) : Type := list widget -> result A * list widget.

Definition page_ret {A} (a : A) : Page A := fun p => (Ok a, p).

Definition page_bind {A B} (m : Page A) (f : A -> Page B) : Page B :=
  fun p => match m p with
           | (Ok a, p') => f a p'
           | (Raise e, p') => (Raise e, p')
           end.

Definition page_lift {A} (r : result A) : Page A := fun p => (r, p).

Definition draw (x : widget) : Page unit := fun p => (Ok tt, (p ++ [x])%list).

Notation "x <~ m ;; k" := (page_bind m (fun x => k))
  (at level 100, m at next level, right associativity).
Notation "m ~;; k" := (page_bind m (fun _ => k))
  (at level 100, right associativity).

Definition is_continuation (a : ascii) : bool :=
  let n := nat_of_ascii a in (Nat.leb 128 n && Nat.ltb n 192)%bool.

(** The leading continuation bytes of a UTF-8 text, then its characters. *)
Fixpoint utf8_split (s : string) : string * list string :=
  match s with
  | EmptyString => (EmptyString, [])
  | String a r =>
      let '(c, l) := utf8_split r in
      if is_continuation a then (String a c, l)
      else (EmptyString, String a c :: l)
  end.

(** The characters of a [str]. *)
Definition utf8_chars (s : string) : list string :=
  let '(c, l) := utf8_split s in
  match c with EmptyString => l | _ => c :: l end.

(** [reversed(v)]: the elements of a list, the keys of a dict, the
    characters of a string, last first. *)
Definition py_reversed (v : json) : result (list json) :=
  match v with
  | JArr l => Ok (rev l)
  | JObj o => Ok (rev (map JStr (dict_keys o)))
  | JStr s => Ok (rev (map JStr (utf8_chars s)))
  | _ => Raise TypeError
  end.

(** [len(v)]. *)
Definition py_len (v : json) : result nat :=
  match v with
  | JArr l => Ok (length l)
  | JObj o => Ok (length o)
  | JStr s => Ok (length (utf8_chars s))
  | _ => Raise TypeError
  end.

(** [v.get(k)]: only a dict has the method. *)
Definition get_method (v : json) (k : string) : result json :=
  match v with
  | JObj o => Ok (match dict_get k o with Some x => x | None => JNull end)
  | _ => Raise AttributeError
  end.

Section Tab.
Context `{Runtime}.

(** The body of the loop, for the entry at index [i] of the reversed
    history. *)
Definition show_entry (history : json) (i : nat) (entry : json) : Page unit :=
  n <~ page_lift (py_len history) ;;
  draw (StExpander ("穿搭方案 #" +:+ dec (n - i))) ~;;
  occasion <~ page_lift (getitem_key entry "occasion") ;;
  draw (StMarkdown ("**场合**：" +:+ py_format occasion)) ~;;
  weather <~ page_lift (getitem_key entry "weather") ;;
  draw (StMarkdown ("**天气**：" +:+ py_format weather)) ~;;
  clothing <~ page_lift (get_method entry "clothing_type") ;;
  (if truthy clothing then
     clothing_type <~ page_lift (getitem_key entry "clothing_type") ;;
     draw (StMarkdown ("**基础服装**：" +:+ py_format clothing_type))
   else page_ret tt) ~;;
  style <~ page_lift (getitem_key entry "style") ;;
  draw (StMarkdown ("**风格**：" +:+ py_format style)) ~;;
  recommendation <~ page_lift (getitem_key entry "recommendation") ;;
  draw (StWrite recommendation) ~;;
  timestamp <~ page_lift (getitem_key entry "timestamp") ;;
  draw (StMarkdown ("🕒 " +:+ py_format timestamp)).

(** [for i, entry in enumerate(...)], from index [i] on. *)
Fixpoint show_entries (history : json) (i : nat) (entries : list json) : Page unit :=
  match entries with
  | [] => page_ret tt
  | entry :: rest =>
      show_entry history i entry ~;; show_entries history (S i) rest
  end.

Definition show_history (history : json) : Page unit :=
  if truthy history then
    entries <~ page_lift (py_reversed history) ;;
    show_entries history 0 entries
  else draw (StInfo "你还没有任何穿搭记录，请先使用上方的功能生成推荐").

(** The tab on an empty page: the outcome and the page it leaves, and the
    world after [load_history]. *)
Definition history_tab (user_id : string) (w : world)
    : (result unit * list widget) * world :=
  match load_history user_id w with
  | (Ok history, w') => (show_history history [], w')
  | (Raise e, w') => ((Raise e, []), w')
  end.

End Tab.

(** ** Runs of appends, and the page of a history *)

(** One call of [save_history]: the clock reading and the arguments. *)
Record save_call : Type := {
  call_time : datetime;
  call_user : string;
  call_occasion : string;
  call_weather : string;
  call_style : string;
  call_recommendation : json;
  call_clothing_type : json
}.

(** Counts down along a list: the first element gets [from]. *)
Fixpoint countdown {A : Type} (from : nat) (l : list A) : list (nat * A) :=
  match l with
  | [] => []
  | x :: r => (from, x) :: countdown (from - 1) r
  end.

Section Runs.
Context `{Runtime}.

Definition run_call (c : save_call) : M bool :=
  fun w =>
    save_history (call_user c) (call_occasion c) (call_weather c) (call_style c)
      (call_recommendation c) (call_clothing_type c) (set_clock (call_time c) w).

(** The calls one after the other; the run stops at the first exception. *)
Fixpoint run_calls (cs : list save_call) : M unit :=
  match cs with
  | [] => ret tt
  | c :: rest => run_call c ;;; run_calls rest
  end.

(** The entry that the call writes. *)
Definition call_entry (c : save_call) : json :=
  history_entry (call_user c) (call_occasion c) (call_weather c) (call_style c)
    (call_recommendation c) (call_clothing_type c) (strftime (call_time c)).

Definition calls_of (user_id : string) (cs : list save_call) : list save_call :=
  List.filter (fun c => String.eqb (call_user c) user_id) cs.

(** What the tab draws for the entry of one call under the number [k]. *)
Definition entry_block (k : nat) (c : save_call) : list widget :=
  ([StExpander ("穿搭方案 #" +:+ dec k);
    StMarkdown ("**场合**：" +:+ call_occasion c);
    StMarkdown ("**天气**：" +:+ call_weather c)]
   ++ (if truthy (call_clothing_type c)
       then [StMarkdown ("**基础服装**：" +:+ py_format (call_clothing_type c))]
       else [])
   ++ [StMarkdown ("**风格**：" +:+ call_style c);
       StWrite (call_recommendation c);
       StMarkdown ("🕒 " +:+ strftime (call_time c))])%list.

(** The blocks of the entries, last call first, numbered from the number
    of entries down to one. *)
Definition history_blocks (cs : list save_call) : list widget :=
  flat_map (fun kc => entry_block (fst kc) (snd kc)) (countdown (length cs) (rev cs)).

End Runs.

(** ** The cache around [get_access_token] (app.py, line 32)

    [@st.cache_data(ttl=21600)] on a function without parameters is one
    slot: what the body returned, when, and the [st] elements it showed.
    A call within [ttl] seconds of the stored run returns the stored value
    and shows the stored elements again without running the body; any other
    call runs the body and stores what it returned, and an exception is
    raised on and stores nothing.  Time is in seconds. *)

Record cached : Type := {
  cached_at : N;
  cached_value : json;
  cached_messages : list event
}.

Definition is_st (e : event) : bool :=
  match e with
  | EvStError _ | EvStSuccess _ | EvStMarkdown _ | EvStWrite _ => true
  | _ => false
  end.

Definition is_get (e : event) : bool :=
  match e with EvGet _ => true | _ => false end.

Definition replay (messages : list event) (w : world) : world :=
  fold_left (fun w e => log e w) messages w.

(** The stored run, if it has not expired. *)
Definition live (ttl now : N) (slot : option cached) : option cached :=
  match slot with
  | Some c => if N.ltb now (cached_at c + ttl) then Some c else None
  | None => None
  end.

Definition cache_data (ttl : N) (body : M json) (now : N) (slot : option cached)
    (w : world) : result json * option cached * world :=
  match live ttl now slot with
  | Some c => (Ok (cached_value c), slot, replay (cached_messages c) w)
  | None =>
      match body w with
      | (Ok v, w') =>
          (Ok v,
           Some {| cached_at := now; cached_value := v;
                   cached_messages :=
                     List.filter is_st (drop (length (events w)) (events w')) |},
           w')
      | (Raise e, w') => (Raise e, None, w')
      end
  end.

Section TokenCache.
Context `{Runtime}.

(** [get_access_token] as the page calls it. *)
Definition cached_get_access_token : N -> option cached -> world ->
    result json * option cached * world :=
  cache_data 21600%N get_access_token.

End TokenCache.

(** ** The history files on the disk (app.py, lines 23-24 and 84-126)

    The store once more, at the level of the calls that [open],
    [os.path.exists] and [json] make on a POSIX file system: names are
    byte strings compared as they are, paths are resolved through
    directories, a path with a NUL or beyond the length limits is refused,
    a file holds bytes that are decoded as UTF-8, the encoding of the
    locale, when read as text, and [json] stops at the limits of the
    interpreter.  The process may read and write where it goes, there is
    room on the disk, there are no symbolic links, and nothing else writes
    to the disk during a call. *)

(** How deep the lists and objects of a value nest. *)
Fixpoint depth (v : json) : nat :=
  match v with
  | JArr l =>
      S ((fix elems (l : list json) : nat :=
            match l with
            | [] => 0
            | x :: l' => Nat.max (depth x) (elems l')
            end) l)
  | JObj o =>
      S ((fix items (o : list (string * json)) : nat :=
            match o with
            | [] => 0
            | (_, x) :: o' => Nat.max (depth x) (items o')
            end) o)
  | _ => 0
  end.

Definition all_ascii (s : string) : bool :=
  forallb (fun c => Nat.ltb (nat_of_ascii c) 128) (list_ascii_of_string s).

Definition in_range (lo hi : nat) (c : ascii) : bool :=
  (Nat.leb lo (nat_of_ascii c) && Nat.leb (nat_of_ascii c) hi)%bool.

(** Well-formed UTF-8, as the strict decoder accepts it. *)
Fixpoint utf8_valid (s : string) : bool :=
  match s with
  | EmptyString => true
  | String a r =>
      if in_range 0 127 a then utf8_valid r
      else if in_range 194 223 a then
        match r with
        | String b r1 => (in_range 128 191 b && utf8_valid r1)%bool
        | _ => false
        end
      else if in_range 224 239 a then
        match r with
        | String b (String c r2) =>
            ((if in_range 224 224 a then in_range 160 191 b
              else if in_range 237 237 a then in_range 128 159 b
              else in_range 128 191 b)
             && in_range 128 191 c && utf8_valid r2)%bool
        | _ => false
        end
      else if in_range 240 244 a then
        match r with
        | String b (String c (String e r3)) =>
            ((if in_range 240 240 a then in_range 144 191 b
              else if in_range 244 244 a then in_range 128 143 b
              else in_range 128 191 b)
             && in_range 128 191 c && in_range 128 191 e && utf8_valid r3)%bool
        | _ => false
        end
      else false
  end.

(** What the store uses of the interpreter beyond [Runtime]: the
    exception, if any, that [json.dump(v, f, indent=2)] raises ([RecursionError]
    on nesting beyond the recursion limit, [ValueError] on an integer
    beyond the limit on digits), with the text that reached the file
    before it; and the exception other than [JSONDecodeError], if any, that
    [json.load] raises on a text.  The two laws say that [json.dump]
    writes ASCII only, and that what it wrote without an exception,
    [json.load] reads without one. *)
Class Interpreter `{Runtime} : Type := {
  dump_raises : json -> option exn;
  dump_partial : json -> string;
  load_raises : string -> option exn;
  json_dumps_ascii : forall indent v, all_ascii (json_dumps indent v) = true;
  dumped_loads : forall indent v,
    dump_raises v = None -> load_raises (json_dumps indent v) = None
}.

Module Disk.

Inductive node : Type :=
| Dir
| File (bytes : string).

(** The tree by absolute path (the root, the empty path, is a directory),
    the working directory, and the two limits of the file system. *)
Record disk : Type := {
  nodes : gmap (list string) node;
  cwd : list string;
  NAME_MAX : nat;
  PATH_MAX : nat
}.

Definition node_at (d : disk) (p : list string) : option node :=
  match p with
  | [] => Some Dir
  | _ => nodes d !! p
  end.

Definition set_node (p : list string) (n : node) (d : disk) : disk :=
  {| nodes := <[p := n]> (nodes d); cwd := cwd d;
     NAME_MAX := NAME_MAX d; PATH_MAX := PATH_MAX d |}.

Inductive errno : Type := ENOENT | ENOTDIR | EISDIR | EEXIST | ENAMETOOLONG.

(** The exception that [OSError] becomes for the error number. *)
Definition os_error (e : errno) : exn :=
  match e with
  | ENOENT => FileNotFoundError
  | ENOTDIR => NotADirectoryError
  | EISDIR => IsADirectoryError
  | EEXIST => OSError
  | ENAMETOOLONG => OSError
  end.

(** The components of a path, the empty ones between and after slashes
    included. *)
Fixpoint split_slash (s : string) : list string :=
  match s with
  | EmptyString => [EmptyString]
  | String c r =>
      if Ascii.eqb c "/" then EmptyString :: split_slash r
      else match split_slash r with
           | [] => [String c EmptyString]
           | h :: t => String c h :: t
           end
  end.

(** Walks the components from the directory [cur]: every component but
    the last has to be a directory that is there. *)
Fixpoint walk (d : disk) (cur : list string) (components : list string)
    : errno + list string :=
  match components with
  | [] => inr cur
  | c :: rest =>
      if (String.eqb c "" || String.eqb c ".")%bool then walk d cur rest
      else if String.eqb c ".." then walk d (removelast cur) rest
      else if Nat.ltb (NAME_MAX d) (String.length c) then inl ENAMETOOLONG
      else
        match rest with
        | [] => inr (cur ++ [c])%list
        | _ =>
            match node_at d (cur ++ [c]) with
            | Some Dir => walk d (cur ++ [c])%list rest
            | Some (File _) => inl ENOTDIR
            | None => inl ENOENT
            end
        end
  end.

(** The node that a path names, which may not be there yet. *)
Definition resolve (d : disk) (path : string) : errno + list string :=
  if String.eqb path "" then inl ENOENT
  else if Nat.leb (PATH_MAX d) (String.length path) then inl ENAMETOOLONG
  else walk d (if String.prefix "/" path then [] else cwd d) (split_slash path).

Definition has_nul (s : string) : bool :=
  existsb (fun c => Ascii.eqb c zero) (list_ascii_of_string s).

(** State and exceptions over the disk. *)
Definition D (A : Type) : Type := disk -> result A * disk.

Definition unit_D {A} (a : A) : D A := fun d => (Ok a, d).

Definition bind_D {A B} (m : D A) (f : A -> D B) : D B :=
  fun d => match m d with
           | (Ok a, d') => f a d'
           | (Raise e, d') => (Raise e, d')
           end.

Definition lift_D {A} (r : result A) : D A := fun d => (r, d).

Notation "x <== m ;; k" := (bind_D m (fun x => k))
  (at level 100, m at next level, right associativity).
Notation "m ==>> k" := (bind_D m (fun _ => k))
  (at level 100, right associativity).

(** [os.path.exists(path)]: any failure to reach the node reads as
    absent. *)
Definition path_exists (path : string) : D bool :=
  fun d =>
    (Ok (if has_nul path then false
         else match resolve d path with
              | inr p => match node_at d p with Some _ => true | None => false end
              | inl _ => false
              end), d).

(** [open(path, "r")], up to the bytes of the file. *)
Definition open_read (path : string) : D string :=
  fun d =>
    (if has_nul path then Raise ValueError
     else match resolve d path with
          | inl e => Raise (os_error e)
          | inr p =>
              match node_at d p with
              | Some (File bytes) => Ok bytes
              | Some Dir => Raise IsADirectoryError
              | None => Raise FileNotFoundError
              end
          end, d).

(** [open(path, "w")]: the file is made or emptied; the open file is
    named by its place in the tree. *)
Definition open_write (path : string) : D (list string) :=
  fun d =>
    if has_nul path then (Raise ValueError, d)
    else match resolve d path with
         | inl e => (Raise (os_error e), d)
         | inr p =>
             match node_at d p with
             | Some Dir => (Raise IsADirectoryError, d)
             | _ =>
                 match node_at d (removelast p) with
                 | Some Dir => (Ok p, set_node p (File "") d)
                 | Some (File _) => (Raise NotADirectoryError, d)
                 | None => (Raise FileNotFoundError, d)
                 end
             end
         end.

(** The text written through the open file, as it stands when the file
    is closed. *)
Definition write (f : list string) (text : string) : D unit :=
  fun d => (Ok tt, set_node f (File text) d).

(** [os.makedirs(name)] for a name of one component. *)
Definition makedirs (name : string) : D unit :=
  fun d =>
    if has_nul name then (Raise ValueError, d)
    else match resolve d name with
         | inl e => (Raise (os_error e), d)
         | inr p =>
             match node_at d p with
             | Some _ => (Raise (os_error EEXIST), d)
             | None =>
                 match node_at d (removelast p) with
                 | Some Dir => (Ok tt, set_node p Dir d)
                 | Some (File _) => (Raise NotADirectoryError, d)
                 | None => (Raise FileNotFoundError, d)
                 end
             end
         end.

Section Store.
Context `{Interpreter}.

(** [json.load(f)] on the bytes of the file. *)
Definition json_load (bytes : string) : result json :=
  if utf8_valid bytes then
    match load_raises bytes with
    | Some e => Raise e
    | None =>
        match json_loads bytes with
        | Some v => Ok v
        | None => Raise JSONDecodeError
        end
    end
  else Raise UnicodeDecodeError.

(** The [try] around it: [except json.JSONDecodeError] and no other. *)
Definition json_load_or_empty (bytes : string) : result json :=
  match json_load bytes with
  | Raise JSONDecodeError => Ok (JArr [])
  | r => r
  end.

(** [json.dump(data, f, indent=2)]. *)
Definition json_dump (data : json) (f : list string) : D unit :=
  match dump_raises data with
  | Some e => write f (dump_partial data) ==>> lift_D (Raise e)
  | None => write f (json_dumps 2 data)
  end.

(** Lines 23-24. *)
Definition make_history_dir : D unit :=
  there <== path_exists "history" ;;
  if there : bool then unit_D tt else makedirs "history".

Definition save_history (now : datetime) (user_id occasion weather style : string)
    (recommendation clothing_type : json) : D bool :=
  let entry := history_entry user_id occasion weather style
                 recommendation clothing_type (strftime now) in
  let filename := history_filename user_id in
  there <== path_exists filename ;;
  data <== (if there : bool
            then bytes <== open_read filename ;; lift_D (json_load_or_empty bytes)
            else unit_D (JArr [])) ;;
  data' <== lift_D (list_append data entry) ;;
  f <== open_write filename ;;
  json_dump data' f ==>>
  unit_D true.

Definition load_history (user_id : string) : D json :=
  let filename := history_filename user_id in
  there <== path_exists filename ;;
  if there : bool
  then bytes <== open_read filename ;; lift_D (json_load_or_empty bytes)
  else unit_D (JArr []).

(** What the two functions make of the node where the history file is
    looked for. *)
Definition stored_at (n : option node) : result json :=
  match n with
  | None => Ok (JArr [])
  | Some Dir => Raise IsADirectoryError
  | Some (File bytes) => json_load_or_empty bytes
  end.

(** The default of the last parameter: [clothing_type=None]. *)
Definition save_history_default (now : datetime)
    (user_id occasion weather style : string) (recommendation : json) : D bool :=
  save_history now user_id occasion weather style recommendation JNull.

(** One call after the other, with what each returned; the run stops at
    the first exception. *)
Fixpoint run_calls (cs : list save_call) : D (list bool) :=
  match cs with
  | [] => unit_D []
  | c :: rest =>
      b <== save_history (call_time c) (call_user c) (call_occasion c)
              (call_weather c) (call_style c) (call_recommendation c)
              (call_clothing_type c) ;;
      bs <== run_calls rest ;;
      unit_D (b :: bs)
  end.

End Store.

(** ** Words for the statements about the disk *)

(** No slash and no NUL. *)
Definition plain_name (s : string) : bool :=
  forallb (fun c => negb (Ascii.eqb c "/" || Ascii.eqb c zero))
    (list_ascii_of_string s).

(** The place of the user's file. *)
Definition history_path (d : disk) (user_id : string) : list string :=
  (cwd d ++ ["history"; user_id +:+ "_history.json"])%list.

(** The identifier is a plain name, the directory [history] is there, and
    the file's name and path are within the limits. *)
Definition storable (d : disk) (user_id : string) : bool :=
  (plain_name user_id
   && match node_at d (cwd d ++ ["history"]) with Some Dir => true | _ => false end
   && Nat.leb (String.length (user_id +:+ "_history.json")) (NAME_MAX d)
   && Nat.ltb (String.length (history_filename user_id)) (PATH_MAX d))%bool.

(** The file at [p] emptied by [open] and then holding [text]. *)
Definition rewritten (p : list string) (text : string) (d : disk) : disk :=
  set_node p (File text) (set_node p (File "") d).

(** [os.path.exists] says that the user's history file is not there. *)
Definition absent (d : disk) (user_id : string) : Prop :=
  fst (path_exists (history_filename user_id) d) = Ok false.

(** The user's history file is there and [open] gives its bytes. *)
Definition holds (d : disk) (user_id : string) (bytes : string) : Prop :=
  fst (path_exists (history_filename user_id) d) = Ok true /\
  fst (open_read (history_filename user_id) d) = Ok bytes.

(** The map from paths to texts of [world] shows the user's history file
    as the disk has it: not there, or there with bytes that decode to a
    text on which [json.load] raises nothing but [JSONDecodeError]. *)
Definition shown `{Interpreter} (w : world) (d : disk) (user_id : string) : Prop :=
  match node_at d (history_path d user_id) with
  | None => files w !! history_filename user_id = None
  | Some (File bytes) =>
      files w !! history_filename user_id = Some bytes /\
      utf8_valid bytes = true /\ load_raises bytes = None
  | Some Dir => False
  end.

End Disk.

(** ** A runtime to run the functions with

    A compact, self-delimiting text form of [json] values and its reader.
    It stands in for Python's codec wherever the functions are evaluated;
    no statement about [app.py] depends on how it prints. *)
Module Compact.

Fixpoint enc_pos (p : positive) : string :=
  match p with
  | xH => "."
  | xO q => String "0" (enc_pos q)
  | xI q => String "1" (enc_pos q)
  end.

Definition quote : ascii := "'"%char.
Definition backslash : ascii := "\"%char.

Definition is_high (c : ascii) : bool :=
  match c with Ascii _ _ _ _ _ _ _ b7 => b7 end.

Definition set_high (b : bool) (c : ascii) : ascii :=
  match c with Ascii b0 b1 b2 b3 b4 b5 b6 _ => Ascii b0 b1 b2 b3 b4 b5 b6 b end.

Definition caret : ascii := "^"%char.

(** The characters of a string, then the closing quote: a backslash
    before each quote and backslash, and a byte above 127 as backslash,
    caret and the byte less 128, so that the text is ASCII. *)
Fixpoint enc_chars (s : string) : string :=
  match s with
  | EmptyString => String quote EmptyString
  | String c r =>
      if (Ascii.eqb c quote || Ascii.eqb c backslash)%bool
      then String backslash (String c (enc_chars r))
      else if is_high c
      then String backslash (String caret (String (set_high false c) (enc_chars r)))
      else String c (enc_chars r)
  end.

Definition enc_Z (z : Z) : string :=
  match z with
  | Z0 => "z"
  | Zpos p => String "+" (enc_pos p)
  | Zneg p => String "-" (enc_pos p)
  end.

Definition enc_sign (s : bool) : ascii := if s then "-"%char else "+"%char.

Definition enc_float (f : spec_float) : string :=
  match f with
  | S754_zero s => String "o" (String (enc_sign s) EmptyString)
  | S754_infinity s => String "i" (String (enc_sign s) EmptyString)
  | S754_nan => "a"
  | S754_finite s m e => String "m" (String (enc_sign s) (enc_pos m +:+ enc_Z e))
  end.

Fixpoint enc (v : json) : string :=
  match v with
  | JNull => "n"
  | JBool true => "t"
  | JBool false => "f"
  | JNum z => String "#" (enc_Z z)
  | JFloat f => String "d" (enc_float f)
  | JStr s => String quote (enc_chars s)
  | JArr l =>
      String "[" ((fix elems (l : list json) : string :=
                     match l with
                     | [] => "]"
                     | x :: l' => enc x +:+ elems l'
                     end) l)
  | JObj o =>
      String "{" ((fix items (o : list (string * json)) : string :=
                     match o with
                     | [] => "}"
                     | (k, x) :: o' => String quote (enc_chars k) +:+ enc x +:+ items o'
                     end) o)
  end.

Fixpoint enc_elems (l : list json) : string :=
  match l with
  | [] => "]"
  | x :: l' => enc x +:+ enc_elems l'
  end.

Fixpoint enc_items (o : list (string * json)) : string :=
  match o with
  | [] => "}"
  | (k, x) :: o' => String quote (enc_chars k) +:+ enc x +:+ enc_items o'
  end.

Fixpoint dec_pos (s : string) : option (positive * string) :=
  match s with
  | EmptyString => None
  | String c r =>
      if Ascii.eqb c "." then Some (xH, r)
      else if Ascii.eqb c "0" then
        match dec_pos r with Some (p, r') => Some (xO p, r') | None => None end
      else if Ascii.eqb c "1" then
        match dec_pos r with Some (p, r') => Some (xI p, r') | None => None end
      else None
  end.

Definition dec_Z (s : string) : option (Z * string) :=
  match s with
  | EmptyString => None
  | String c r =>
      if Ascii.eqb c "z" then Some (0%Z, r)
      else if Ascii.eqb c "+" then
        match dec_pos r with Some (p, r') => Some (Zpos p, r') | None => None end
      else if Ascii.eqb c "-" then
        match dec_pos r with Some (p, r') => Some (Zneg p, r') | None => None end
      else None
  end.

Definition dec_sign (s : string) : option (bool * string) :=
  match s with
  | EmptyString => None
  | String c r =>
      if Ascii.eqb c "-" then Some (true, r)
      else if Ascii.eqb c "+" then Some (false, r)
      else None
  end.

Definition dec_float (s : string) : option (spec_float * string) :=
  match s with
  | EmptyString => None
  | String c r =>
      if Ascii.eqb c "a" then Some (S754_nan, r)
      else
        match dec_sign r with
        | None => None
        | Some (sg, r1) =>
            if Ascii.eqb c "o" then Some (S754_zero sg, r1)
            else if Ascii.eqb c "i" then Some (S754_infinity sg, r1)
            else if Ascii.eqb c "m" then
              match dec_pos r1 with
              | None => None
              | Some (m, r2) =>
                  match dec_Z r2 with
                  | Some (e, r3) => Some (S754_finite sg m e, r3)
                  | None => None
                  end
              end
            else None
        end
  end.

Fixpoint dec_chars (s : string) : option (string * string) :=
  match s with
  | EmptyString => None
  | String c r =>
      if Ascii.eqb c quote then Some (EmptyString, r)
      else if Ascii.eqb c backslash then
        match r with
        | EmptyString => None
        | String d r' =>
            if Ascii.eqb d caret then
              match r' with
              | EmptyString => None
              | String e r'' =>
                  match dec_chars r'' with
                  | Some (t, r3) => Some (String (set_high true e) t, r3)
                  | None => None
                  end
              end
            else
              match dec_chars r' with
              | Some (t, r'') => Some (String d t, r'')
              | None => None
              end
        end
      else
        match dec_chars r with
        | Some (t, r') => Some (String c t, r')
        | None => None
        end
  end.

Fixpoint dec_val (n : nat) (s : string) {struct n} : option (json * string) :=
  match n with
  | O => None
  | S n' =>
      match s with
      | EmptyString => None
      | String c r =>
          if Ascii.eqb c "n" then Some (JNull, r)
          else if Ascii.eqb c "t" then Some (JBool true, r)
          else if Ascii.eqb c "f" then Some (JBool false, r)
          else if Ascii.eqb c "#" then
            match dec_Z r with Some (z, r') => Some (JNum z, r') | None => None end
          else if Ascii.eqb c "d" then
            match dec_float r with Some (f, r') => Some (JFloat f, r') | None => None end
          else if Ascii.eqb c quote then
            match dec_chars r with Some (t, r') => Some (JStr t, r') | None => None end
          else if Ascii.eqb c "[" then
            match dec_elems n' r with Some (l, r') => Some (JArr l, r') | None => None end
          else if Ascii.eqb c "{" then
            match dec_items n' r with Some (o, r') => Some (JObj o, r') | None => None end
          else None
      end
  end
with dec_elems (n : nat) (s : string) {struct n} : option (list json * string) :=
  match n with
  | O => None
  | S n' =>
      match s with
      | EmptyString => None
      | String c r =>
          if Ascii.eqb c "]" then Some ([], r)
          else
            match dec_val n' s with
            | Some (v, r1) =>
                match dec_elems n' r1 with
                | Some (l, r2) => Some (v :: l, r2)
                | None => None
                end
            | None => None
            end
      end
  end
with dec_items (n : nat) (s : string) {struct n} : option (list (string * json) * string) :=
  match n with
  | O => None
  | S n' =>
      match s with
      | EmptyString => None
      | String c r =>
          if Ascii.eqb c "}" then Some ([], r)
          else if Ascii.eqb c quote then
            match dec_chars r with
            | Some (k, r1) =>
                match dec_val n' r1 with
                | Some (v, r2) =>
                    match dec_items n' r2 with
                    | Some (o, r3) => Some ((k, v) :: o, r3)
                    | None => None
                    end
                | None => None
                end
            | None => None
            end
          else None
      end
  end.

Definition dumps (indent : nat) (v : json) : string := enc v.

Definition loads (s : string) : option json :=
  match dec_val (String.length s) s with
  | Some (v, EmptyString) => Some v
  | _ => None
  end.

Definition format (v : json) : string :=
  match v with
  | JStr s => s
  | _ => enc v
  end.

(** The nesting that the printer and the reader go down to. *)
Definition recursion_limit : nat := 1000.

Definition too_deep (v : json) : bool := Nat.ltb recursion_limit (depth v).

(** The printer gives up before anything is written. *)
Definition partial (v : json) : string := "".

Definition dump_raises (v : json) : option exn :=
  if too_deep v then Some RecursionError else None.

Definition load_raises (s : string) : option exn :=
  match loads s with
  | Some v => dump_raises v
  | None => None
  end.

End Compact.

(** ** Worlds to run the functions in *)
Module Demo.
Section Worlds.
Context `{Runtime}.

Definition noon : datetime :=
  {| year := 2025; month := 6; day := 1; hour := 12; minute := 0; second := 0 |}.

(** No file, no network, no model. *)
Definition bare : world :=
  {| files := ∅; clock := noon; API_KEY := "key"; SECRET_KEY := "secret";
     http_get := fun _ => Raise ConnectionError;
     http_post := fun _ _ => Raise ConnectionError;
     text_model := fun _ _ _ => Raise RuntimeError;
     events := [] |}.

Definition later (s : nat) : datetime :=
  {| year := 2025; month := 6; day := 1; hour := 12; minute := 0; second := s |}.

(** The history file of user 7 holds text that is not JSON. *)
Definition garbled : world :=
  set_files (<[history_filename "7" := "not json"]> ∅) bare.

(** The history file of user 7 holds JSON that is not a list. *)
Definition tampered : world :=
  set_files (<[history_filename "7" := json_dumps 2 (JObj [])]> ∅) bare.

(** A picture that encodes, and a model that continues its prompt. *)
Definition photo : image := {| save_jpeg := Ok "Man" |}.

Definition echo_model (prompt : string) (max_length n : Z) : result json :=
  Ok (JArr [JObj [("generated_text", JStr (prompt +:+ "白色T恤配牛仔裤"))]]).

(** The token endpoint refuses the key. *)
Definition denied : world :=
  {| files := ∅; clock := noon; API_KEY := "key"; SECRET_KEY := "secret";
     http_get := fun _ => Ok {| status_code := 401; text := "invalid_client" |};
     http_post := fun _ _ => Raise ConnectionError;
     text_model := echo_model;
     events := [] |}.

(** The token endpoint grants a token and the classifier gives [answer]. *)
Definition granted (answer : response) : world :=
  {| files := ∅; clock := noon; API_KEY := "key"; SECRET_KEY := "secret";
     http_get := fun _ =>
       Ok {| status_code := 200;
             text := json_dumps 0 (JObj [("access_token", JStr "tok")]) |};
     http_post := fun _ _ => Ok answer;
     text_model := echo_model;
     events := [] |}.

Definition t_shirt : response :=
  {| status_code := 200;
     text := json_dumps 0
               (JObj [("result", JArr [JObj [("keyword", JStr "T-shirt")]])]) |}.

(** A response as the service words it: a log id, a count, and scored
    results. *)
Definition scored : response :=
  {| status_code := 200;
     text := json_dumps 0
               (JObj [("log_id", JNum 327863200205075661);
                      ("result_num", JNum 2);
                      ("result",
                       JArr [JObj [("score", JFloat (S754_finite false 3 (-2)));
                                   ("root", JStr "商品-服装");
                                   ("keyword", JStr "连衣裙")];
                             JObj [("score", JFloat (S754_finite false 1 (-3)));
                                   ("root", JStr "商品-服装");
                                   ("keyword", JStr "半身裙")]])]) |}.

Definition nothing_found : response :=
  {| status_code := 200; text := json_dumps 0 (JObj [("result", JArr [])]) |}.

Definition no_result_field : response :=
  {| status_code := 200;
     text := json_dumps 0 (JObj [("error_code", JNum 216201)]) |}.

Definition server_error : response := {| status_code := 500; text := "oops" |}.

(** The token endpoint answers 200 with [body]. *)
Definition token_body (body : json) : world :=
  {| files := ∅; clock := noon; API_KEY := "key"; SECRET_KEY := "secret";
     http_get := fun _ => Ok {| status_code := 200; text := json_dumps 0 body |};
     http_post := fun _ _ => Raise ConnectionError;
     text_model := echo_model;
     events := [] |}.

(** A picture in a mode the JPEG encoder refuses. *)
Definition transparent : image := {| save_jpeg := Raise OSError |}.

Definition no_keyword : response :=
  {| status_code := 200;
     text := json_dumps 0 (JObj [("result", JArr [JObj [("root", JStr "商品-服装")]])]) |}.

Definition not_json : response := {| status_code := 200; text := "<html>" |}.

(** Three presses of the buttons: user 42, user 7, user 42 again. *)
Definition first_call : save_call :=
  {| call_time := later 1; call_user := "42"; call_occasion := "日常";
     call_weather := "炎热"; call_style := "休闲";
     call_recommendation := JStr "T恤和短裤"; call_clothing_type := JNull |}.

Definition second_call : save_call :=
  {| call_time := later 2; call_user := "7"; call_occasion := "工作";
     call_weather := "寒冷"; call_style := "正式";
     call_recommendation := JStr "大衣"; call_clothing_type := JStr "衬衫" |}.

Definition third_call : save_call :=
  {| call_time := later 3; call_user := "42"; call_occasion := "派对";
     call_weather := "温暖"; call_style := "时尚";
     call_recommendation := JStr "连衣裙"; call_clothing_type := JStr "高跟鞋" |}.

Definition calls : list save_call := [first_call; second_call; third_call].

(** The history file of user 7 holds one written entry and then an empty
    object. *)
Definition broken : world :=
  set_files
    (<[history_filename "7" :=
         json_dumps 2 (JArr [history_entry "7" "工作" "寒冷" "正式" (JStr "大衣")
                               (JStr "衬衫") "2025-06-01 12:00:02";
                             JObj []])]> ∅) bare.

End Worlds.
End Demo.

(** Disks to run the store on. *)
Module DiskDemo.
Import Disk.
Section Disks.
Context `{Interpreter}.

(** The working directory and nothing in it. *)
Definition empty_dir : disk :=
  {| nodes := {[ ["srv"] := Dir; ["srv"; "app"] := Dir ]};
     cwd := ["srv"; "app"]; NAME_MAX := 255; PATH_MAX := 4096 |}.

(** After lines 23-24. *)
Definition started : disk := snd (make_history_dir empty_dir).

(** The two bytes FF FE in the history file of user 42. *)
Definition byte_order_mark : string :=
  String (ascii_of_nat 255) (String (ascii_of_nat 254) EmptyString).

Definition scrambled : disk :=
  set_node (history_path started "42") (File byte_order_mark) started.

(** Text that is not JSON in the history file of user 7. *)
Definition garbled : disk :=
  set_node (history_path started "7") (File "not json") started.

(** JSON that is not a list in the history file of user 7. *)
Definition tampered : disk :=
  set_node (history_path started "7") (File (json_dumps 2 (JObj []))) started.

End Disks.
End DiskDemo.

(** * Facts *)

(** ** Strings *)
Module StringFacts.

#[local] Arguments String.append !s1 s2 : simpl nomatch.

Lemma length_append (s t : string) :
  String.length (s +:+ t) = String.length s + String.length t.
Proof. induction s as [|c s IH]; simpl; [reflexivity | now rewrite IH]. Qed.

Lemma append_assoc (s t u : string) : (s +:+ t) +:+ u = s +:+ (t +:+ u).
Proof. induction s as [|c s IH]; simpl; [reflexivity | now rewrite IH]. Qed.

Lemma append_empty_r (s : string) : s +:+ "" = s.
Proof. induction s as [|c s IH]; simpl; [reflexivity | now rewrite IH]. Qed.

Lemma append_inj_l (s1 s2 t : string) : s1 +:+ t = s2 +:+ t -> s1 = s2.
Proof.
  intros E.
  assert (L : String.length s1 = String.length s2).
  { apply (f_equal String.length) in E. rewrite !length_append in E. lia. }
  revert s2 E L.
  induction s1 as [|c s1 IH]; intros [|d s2] E L; simpl in *;
    try discriminate; [reflexivity|].
  injection E as -> E. f_equal. apply IH; [exact E | lia].
Qed.

Lemma append_nonempty_l (c : ascii) (s t : string) : String c s +:+ t <> "".
Proof. discriminate. Qed.

End StringFacts.

(** ** ASCII text is well-formed UTF-8 *)
Module TextFacts.

#[local] Arguments String.append !s1 s2 : simpl nomatch.

Lemma all_ascii_cons (c : ascii) (s : string) :
  all_ascii (String c s) = (Nat.ltb (nat_of_ascii c) 128 && all_ascii s)%bool.
Proof. reflexivity. Qed.

Lemma all_ascii_append (s t : string) :
  all_ascii (s +:+ t) = (all_ascii s && all_ascii t)%bool.
Proof.
  induction s as [|c s IH]; [reflexivity|].
  simpl String.append. rewrite !all_ascii_cons, IH. apply andb_assoc.
Qed.

Lemma utf8_valid_cons_ascii (c : ascii) (s : string) :
  Nat.ltb (nat_of_ascii c) 128 = true ->
  utf8_valid (String c s) = utf8_valid s.
Proof.
  intros Hc.
  assert (E : in_range 0 127 c = true).
  { unfold in_range. apply Nat.ltb_lt in Hc.
    apply andb_true_intro. split; apply Nat.leb_le; lia. }
  cbn [utf8_valid]. now rewrite E.
Qed.

Lemma utf8_valid_ascii (s : string) : all_ascii s = true -> utf8_valid s = true.
Proof.
  induction s as [|c s IH]; [reflexivity|].
  rewrite all_ascii_cons. intros [Hc Hs]%andb_prop.
  rewrite utf8_valid_cons_ascii by exact Hc. apply IH, Hs.
Qed.

End TextFacts.

(** ** The compact runtime reads back what it prints *)
Module CompactFacts.
Import Compact StringFacts.

#[local] Arguments String.append !s1 s2 : simpl nomatch.

Lemma dec_enc_pos (p : positive) (r : string) :
  dec_pos (enc_pos p +:+ r) = Some (p, r).
Proof. induction p as [q IH|q IH|]; simpl; [now rewrite IH | now rewrite IH | reflexivity]. Qed.

Lemma dec_enc_Z (z : Z) (r : string) : dec_Z (enc_Z z +:+ r) = Some (z, r).
Proof. destruct z as [|p|p]; simpl; [reflexivity | |]; now rewrite dec_enc_pos. Qed.

Lemma dec_enc_float (f : spec_float) (r : string) :
  dec_float (enc_float f +:+ r) = Some (f, r).
Proof.
  destruct f as [[]|[]| |[] m e]; try reflexivity;
    simpl; rewrite append_assoc, dec_enc_pos, dec_enc_Z; reflexivity.
Qed.

Lemma dec_enc_chars (s r : string) :
  dec_chars (enc_chars s +:+ r) = Some (s, r).
Proof.
  induction s as [|c s IH]; [reflexivity|].
  simpl enc_chars.
  destruct (Ascii.eqb_spec c quote) as [->|Hq].
  - simpl. now rewrite IH.
  - destruct (Ascii.eqb_spec c backslash) as [->|Hb].
    + simpl. now rewrite IH.
    + simpl. destruct (is_high c) eqn:Hh.
      * simpl. rewrite IH.
        destruct c as [b0 b1 b2 b3 b4 b5 b6 b7]. cbn in Hh. now subst b7.
      * simpl.
        destruct (Ascii.eqb_spec c quote); [contradiction|].
        destruct (Ascii.eqb_spec c backslash); [contradiction|].
        now rewrite IH.
Qed.

Lemma enc_arr (l : list json) : enc (JArr l) = String "[" (enc_elems l).
Proof. reflexivity. Qed.

Lemma enc_obj (o : list (string * json)) : enc (JObj o) = String "{" (enc_items o).
Proof. reflexivity. Qed.

Lemma enc_nonempty (v : json) : 1 <= String.length (enc v).
Proof. destruct v as [|[]| | | | |]; simpl; lia. Qed.

Lemma enc_elems_nonempty (l : list json) : 1 <= String.length (enc_elems l).
Proof.
  destruct l as [|x l]; simpl; [lia|].
  rewrite length_append. pose proof (enc_nonempty x). lia.
Qed.

Lemma enc_items_nonempty (o : list (string * json)) : 1 <= String.length (enc_items o).
Proof. destruct o as [|[k x] o]; simpl; lia. Qed.

(** No value prints with a closing bracket in front. *)
Lemma enc_head (v : json) :
  exists c r, enc v = String c r /\ Ascii.eqb c "]" = false.
Proof.
  destruct v as [|[]| | | | |]; simpl; eexists _, _; split; reflexivity.
Qed.

Lemma dec_elems_cons (n : nat) (v : json) (s : string) :
  dec_elems (S n) (enc v +:+ s) =
  match dec_val n (enc v +:+ s) with
  | Some (x, r1) =>
      match dec_elems n r1 with
      | Some (l, r2) => Some (x :: l, r2)
      | None => None
      end
  | None => None
  end.
Proof.
  destruct (enc_head v) as (c & t & E & Hc).
  rewrite E. simpl. now rewrite Hc.
Qed.

Lemma dec_enc (n : nat) :
  (forall v r, String.length (enc v) <= n ->
               dec_val n (enc v +:+ r) = Some (v, r)) /\
  (forall l r, String.length (enc_elems l) <= n ->
               dec_elems n (enc_elems l +:+ r) = Some (l, r)) /\
  (forall o r, String.length (enc_items o) <= n ->
               dec_items n (enc_items o +:+ r) = Some (o, r)).
Proof.
  induction n as [|n (IHv & IHl & IHo)].
  - repeat split; intros x r Hn.
    + pose proof (enc_nonempty x). lia.
    + pose proof (enc_elems_nonempty x). lia.
    + pose proof (enc_items_nonempty x). lia.
  - repeat split.
    + intros v r Hn.
      destruct v as [|[]|z|f|s|l|o]; try reflexivity.
      * simpl. now rewrite dec_enc_Z.
      * simpl. now rewrite dec_enc_float.
      * simpl. now rewrite dec_enc_chars.
      * change (enc (JArr l)) with (String "[" (enc_elems l)) in *.
        simpl in *. rewrite IHl; [reflexivity | lia].
      * change (enc (JObj o)) with (String "{" (enc_items o)) in *.
        simpl in *. rewrite IHo; [reflexivity | lia].
    + intros l r Hn. destruct l as [|v l]; [reflexivity|].
      simpl enc_elems in *. rewrite length_append in Hn.
      pose proof (enc_nonempty v). pose proof (enc_elems_nonempty l).
      rewrite append_assoc, dec_elems_cons.
      rewrite IHv by lia. rewrite IHl by lia. reflexivity.
    + intros o r Hn. destruct o as [|[k v] o]; [reflexivity|].
      simpl enc_items in *. simpl in Hn. rewrite !length_append in Hn.
      pose proof (enc_nonempty v). pose proof (enc_items_nonempty o).
      simpl. rewrite !append_assoc, dec_enc_chars.
      rewrite IHv by lia. rewrite IHo by lia. reflexivity.
Qed.

Lemma loads_dumps (indent : nat) (v : json) : loads (dumps indent v) = Some v.
Proof.
  unfold loads, dumps.
  rewrite <- (append_empty_r (enc v)) at 2.
  now rewrite (proj1 (dec_enc _)).
Qed.

Lemma format_str (s : string) : format (JStr s) = s.
Proof. reflexivity. Qed.

(** The printer writes ASCII only. *)
Lemma low_ascii (c : ascii) :
  is_high c = false -> Nat.ltb (nat_of_ascii c) 128 = true.
Proof.
  destruct c as [[] [] [] [] [] [] [] []]; intros Hc;
    first [discriminate Hc | reflexivity].
Qed.

Lemma set_high_ascii (c : ascii) :
  Nat.ltb (nat_of_ascii (set_high false c)) 128 = true.
Proof. apply low_ascii. now destruct c. Qed.

Lemma enc_pos_ascii (p : positive) : all_ascii (enc_pos p) = true.
Proof. induction p as [q IH|q IH|]; [exact IH | exact IH | reflexivity]. Qed.

Lemma enc_Z_ascii (z : Z) : all_ascii (enc_Z z) = true.
Proof. destruct z as [|p|p]; [reflexivity | |]; exact (enc_pos_ascii p). Qed.

Lemma enc_float_ascii (f : spec_float) : all_ascii (enc_float f) = true.
Proof.
  destruct f as [[]|[]| |[] m e]; try reflexivity;
    simpl enc_float; rewrite !TextFacts.all_ascii_cons, TextFacts.all_ascii_append,
      enc_pos_ascii, enc_Z_ascii; reflexivity.
Qed.

Lemma enc_chars_ascii (s : string) : all_ascii (enc_chars s) = true.
Proof.
  induction s as [|c s IH]; [reflexivity|].
  simpl enc_chars.
  destruct (Ascii.eqb_spec c quote) as [->|Hq]; [exact IH|].
  destruct (Ascii.eqb_spec c backslash) as [->|Hb]; [exact IH|].
  cbn [orb]. destruct (is_high c) eqn:Hh.
  - rewrite !TextFacts.all_ascii_cons, set_high_ascii, IH. reflexivity.
  - rewrite TextFacts.all_ascii_cons, (low_ascii c Hh), IH. reflexivity.
Qed.

Lemma enc_ascii_within (n : nat) :
  (forall v, String.length (enc v) <= n -> all_ascii (enc v) = true) /\
  (forall l, String.length (enc_elems l) <= n -> all_ascii (enc_elems l) = true) /\
  (forall o, String.length (enc_items o) <= n -> all_ascii (enc_items o) = true).
Proof.
  induction n as [|n (IHv & IHl & IHo)].
  - repeat split; intros x Hn.
    + pose proof (enc_nonempty x). lia.
    + pose proof (enc_elems_nonempty x). lia.
    + pose proof (enc_items_nonempty x). lia.
  - repeat split.
    + intros v Hn.
      destruct v as [|[]|z|f|s|l|o]; try reflexivity.
      * exact (enc_Z_ascii z).
      * exact (enc_float_ascii f).
      * exact (enc_chars_ascii s).
      * change (enc (JArr l)) with (String "[" (enc_elems l)) in *.
        simpl in Hn. rewrite TextFacts.all_ascii_cons, IHl; [reflexivity | lia].
      * change (enc (JObj o)) with (String "{" (enc_items o)) in *.
        simpl in Hn. rewrite TextFacts.all_ascii_cons, IHo; [reflexivity | lia].
    + intros l Hn. destruct l as [|v l]; [reflexivity|].
      simpl enc_elems in *. rewrite length_append in Hn.
      pose proof (enc_nonempty v). pose proof (enc_elems_nonempty l).
      rewrite TextFacts.all_ascii_append, IHv, IHl by lia. reflexivity.
    + intros o Hn. destruct o as [|[k v] o]; [reflexivity|].
      simpl enc_items in *. simpl in Hn. rewrite !length_append in Hn.
      pose proof (enc_nonempty v). pose proof (enc_items_nonempty o).
      rewrite TextFacts.all_ascii_cons, !TextFacts.all_ascii_append,
        enc_chars_ascii, IHv, IHo by lia.
      reflexivity.
Qed.

Lemma dumps_ascii (indent : nat) (v : json) : all_ascii (dumps indent v) = true.
Proof. exact (proj1 (enc_ascii_within _) v (Nat.le_refl _)). Qed.

Lemma dumped_loads (indent : nat) (v : json) :
  dump_raises v = None -> load_raises (dumps indent v) = None.
Proof. intros Hv. unfold load_raises. now rewrite loads_dumps. Qed.

End CompactFacts.

#[export] Instance compact_runtime : Runtime := {|
  json_dumps := Compact.dumps;
  json_loads := Compact.loads;
  json_loads_dumps := CompactFacts.loads_dumps;
  py_format := Compact.format;
  py_format_str := CompactFacts.format_str
|}.

#[export] Instance compact_interpreter : Interpreter := {|
  dump_raises := Compact.dump_raises;
  dump_partial := Compact.partial;
  load_raises := Compact.load_raises;
  json_dumps_ascii := CompactFacts.dumps_ascii;
  dumped_loads := CompactFacts.dumped_loads
|}.

(** Unfolds the plumbing of [M], leaving the state transformer. *)
Ltac run_M :=
  cbv beta iota delta [bind ret ask lift emit path_exists read_text write_text
                       requests_get requests_post load_text_model call_model].

Example strftime_noon : strftime Demo.noon = "2025-06-01 12:00:00".
Proof. reflexivity. Qed.

Example b64encode_Man : b64encode "Man" = "TWFu" /\ b64encode "Ma" = "TWE=" /\ b64encode "M" = "TQ==".
Proof. repeat split. Qed.

Example compact_prints :
  Compact.enc (JArr [JStr "it's"; JNull; JNum 5; JObj [("k", JBool true)]])
  = "['it\'s'n#+10.{'k't}]".
Proof. reflexivity. Qed.

Example load_bare : load_history "42" Demo.bare = (Ok (JArr []), Demo.bare).
Proof. reflexivity. Qed.

Example load_garbled : fst (load_history "7" Demo.garbled) = Ok (JArr []).
Proof. vm_compute. reflexivity. Qed.

Example save_bare :
  fst (load_history "42" (snd (save_history "42" "日常" "炎热" "休闲" (JStr "T恤和短裤") JNull Demo.bare)))
  = Ok (JArr [history_entry "42" "日常" "炎热" "休闲" (JStr "T恤和短裤") JNull "2025-06-01 12:00:00"]).
Proof. vm_compute. reflexivity. Qed.

(** ** History store *)

Section HistoryFacts.
Context `{Runtime}.

(** [load_history] returns the stored object and changes nothing. *)
Lemma load_history_run (user_id : string) (w : world) :
  load_history user_id w = (Ok (stored_history user_id w), w).
Proof.
  unfold load_history, json_load_or_empty, stored_history. run_M.
  destruct (files w !! history_filename user_id) as [s|] eqn:E;
    rewrite ?E; reflexivity.
Qed.

(** [save_history] in full: it appends to the stored object and writes
    the file anew, or stops at [data.append] with the store untouched. *)
Lemma save_history_run (user_id occasion weather style : string)
    (recommendation clothing_type : json) (w : world) :
  save_history user_id occasion weather style recommendation clothing_type w =
  match list_append (stored_history user_id w)
          (entry_at w user_id occasion weather style recommendation clothing_type) with
  | Ok data => (Ok true, write_history user_id data w)
  | Raise e => (Raise e, w)
  end.
Proof.
  unfold save_history, json_load_or_empty, stored_history, entry_at, write_history.
  run_M.
  destruct (files w !! history_filename user_id) as [s|] eqn:E;
    rewrite ?E; cbv beta iota; reflexivity.
Qed.


Lemma clock_write (user_id : string) (v : json) (w : world) :
  clock (write_history user_id v w) = clock w.
Proof. reflexivity. Qed.


End HistoryFacts.

Section HistoryClaims.
Context `{Runtime}.


(** X2. When the user's history file holds JSON that is not a list,
    [load_history] returns that object, and [save_history] stops at
    [data.append] with [AttributeError] and writes nothing. *)
Theorem save_history_not_a_list (user_id occasion weather style : string)
    (recommendation clothing_type : json) (w : world) (s : string) (v : json) :
  files w !! history_filename user_id = Some s ->
  json_loads s = Some v ->
  (forall l, v <> JArr l) ->
  load_history user_id w = (Ok v, w) /\
  save_history user_id occasion weather style recommendation clothing_type w
    = (Raise AttributeError, w).
Proof.
  intros Hfile Hjson Hv.
  rewrite load_history_run, save_history_run. unfold stored_history.
  rewrite Hfile, Hjson. split; [reflexivity|].
  destruct v; try reflexivity. now destruct (Hv l).
Qed.

End HistoryClaims.

(** ** The history files on the disk *)
Module DiskFacts.
Import Disk StringFacts.

#[local] Arguments String.append !s1 s2 : simpl nomatch.

Lemma list_ascii_append (s t : string) :
  list_ascii_of_string (s +:+ t)
  = (list_ascii_of_string s ++ list_ascii_of_string t)%list.
Proof. induction s as [|c s IH]; simpl; [reflexivity | now rewrite IH]. Qed.

Lemma plain_name_append (s t : string) :
  plain_name (s +:+ t) = (plain_name s && plain_name t)%bool.
Proof. unfold plain_name. now rewrite list_ascii_append, forallb_app. Qed.

Lemma plain_name_cons (c : ascii) (s : string) :
  plain_name (String c s)
  = (negb (Ascii.eqb c "/" || Ascii.eqb c zero) && plain_name s)%bool.
Proof. reflexivity. Qed.

Lemma has_nul_cons (c : ascii) (s : string) :
  has_nul (String c s) = (Ascii.eqb c zero || has_nul s)%bool.
Proof. reflexivity. Qed.

Lemma plain_no_nul (s : string) : plain_name s = true -> has_nul s = false.
Proof.
  induction s as [|c s IH]; [reflexivity|].
  rewrite plain_name_cons, has_nul_cons. intros [Hc Hs]%andb_prop.
  rewrite (IH Hs). apply negb_true_iff, orb_false_elim in Hc.
  now rewrite (proj2 Hc).
Qed.

Lemma split_slash_plain (s : string) : plain_name s = true -> split_slash s = [s].
Proof.
  induction s as [|c s IH]; [reflexivity|].
  rewrite plain_name_cons. intros [Hc Hs]%andb_prop.
  apply negb_true_iff, orb_false_elim in Hc.
  cbn [split_slash]. now rewrite (proj1 Hc), (IH Hs).
Qed.

Lemma plain_file_name (user_id : string) :
  plain_name user_id = true -> plain_name (user_id +:+ "_history.json") = true.
Proof. intros Hu. now rewrite plain_name_append, Hu. Qed.

Lemma history_filename_no_nul (user_id : string) :
  plain_name user_id = true -> has_nul (history_filename user_id) = false.
Proof.
  intros Hu. apply plain_no_nul in Hu as Hn. unfold history_filename, has_nul in *.
  rewrite !list_ascii_append, !existsb_app, Hn. reflexivity.
Qed.

Lemma split_history_filename (user_id : string) :
  plain_name user_id = true ->
  split_slash (history_filename user_id) = ["history"; user_id +:+ "_history.json"].
Proof.
  intros Hu. unfold history_filename. simpl.
  now rewrite (split_slash_plain _ (plain_file_name _ Hu)).
Qed.

Lemma eqb_by_length (s t : string) :
  String.length s <> String.length t -> String.eqb s t = false.
Proof. intros Hl. apply String.eqb_neq. intros ->. now apply Hl. Qed.

Lemma file_name_length (user_id : string) :
  String.length (user_id +:+ "_history.json") = String.length user_id + 13.
Proof. now rewrite length_append. Qed.

Lemma node_at_snoc (d : disk) (p : list string) (c : string) :
  node_at d (p ++ [c]) = nodes d !! (p ++ [c])%list.
Proof. now destruct p. Qed.

Lemma history_path_snoc (d : disk) (user_id : string) :
  history_path d user_id
  = ((cwd d ++ ["history"]) ++ [user_id +:+ "_history.json"])%list.
Proof. unfold history_path. now rewrite <- app_assoc. Qed.

Lemma history_path_parent (d : disk) (user_id : string) :
  removelast (history_path d user_id) = (cwd d ++ ["history"])%list.
Proof. rewrite history_path_snoc. apply removelast_last. Qed.

Lemma history_path_not_dir (d : disk) (user_id : string) :
  history_path d user_id <> (cwd d ++ ["history"])%list.
Proof.
  unfold history_path. intros E. apply (f_equal (@length string)) in E.
  rewrite !length_app in E. cbn in E. lia.
Qed.

Lemma history_path_inj (d : disk) (user_id other : string) :
  history_path d user_id = history_path d other -> user_id = other.
Proof.
  unfold history_path. intros E. apply app_inv_head in E.
  injection E as E. exact (append_inj_l _ _ _ E).
Qed.

(** Where the path of a history file leads, for an identifier that is a
    plain name. *)
Lemma resolve_history (d : disk) (user_id : string) :
  plain_name user_id = true ->
  resolve d (history_filename user_id) =
  if Nat.leb (PATH_MAX d) (String.length (history_filename user_id))
  then inl ENAMETOOLONG
  else if Nat.ltb (NAME_MAX d) 7 then inl ENAMETOOLONG
  else match node_at d (cwd d ++ ["history"]) with
       | Some Dir =>
           if Nat.ltb (NAME_MAX d) (String.length (user_id +:+ "_history.json"))
           then inl ENAMETOOLONG
           else inr (history_path d user_id)
       | Some (File _) => inl ENOTDIR
       | None => inl ENOENT
       end.
Proof.
  intros Hu. unfold resolve. rewrite (split_history_filename _ Hu).
  change (String.eqb (history_filename user_id) "") with false.
  change (String.prefix "/" (history_filename user_id)) with false.
  cbv beta iota.
  destruct (Nat.leb (PATH_MAX d) _); [reflexivity|].
  cbn [walk]. change (String.length "history") with 7.
  change (String.eqb "history" "" || String.eqb "history" ".")%bool with false.
  change (String.eqb "history" "..") with false. cbv beta iota.
  destruct (Nat.ltb (NAME_MAX d) 7); [reflexivity|].
  destruct (node_at d (cwd d ++ ["history"])) as [[|bytes]|]; try reflexivity.
  pose proof (file_name_length user_id) as Hl.
  rewrite !eqb_by_length by (rewrite Hl; cbn; lia). cbn [orb].
  destruct (Nat.ltb (NAME_MAX d) _); [reflexivity|].
  now rewrite history_path_snoc.
Qed.

Lemma resolve_storable (d : disk) (user_id : string) :
  storable d user_id = true ->
  has_nul (history_filename user_id) = false /\
  resolve d (history_filename user_id) = inr (history_path d user_id) /\
  node_at d (removelast (history_path d user_id)) = Some Dir.
Proof.
  unfold storable. intros Hs.
  apply andb_prop in Hs as [Hs Hpath]. apply andb_prop in Hs as [Hs Hname].
  apply andb_prop in Hs as [Hu Hdir].
  split; [exact (history_filename_no_nul _ Hu)|].
  rewrite history_path_parent, (resolve_history _ _ Hu).
  apply Nat.ltb_lt in Hpath. apply Nat.leb_le in Hname.
  pose proof (file_name_length user_id) as Hl.
  destruct (node_at d (cwd d ++ ["history"])) as [[|bytes]|]; try discriminate.
  split; [|reflexivity].
  destruct (Nat.leb_spec (PATH_MAX d) (String.length (history_filename user_id)));
    [lia|].
  destruct (Nat.ltb_spec (NAME_MAX d) 7); [lia|].
  destruct (Nat.ltb_spec (NAME_MAX d) (String.length (user_id +:+ "_history.json")));
    [lia | reflexivity].
Qed.

Lemma node_at_rewritten (p : list string) (text : string) (d : disk) :
  p <> [] -> node_at (rewritten p text d) p = Some (File text).
Proof.
  intros Hp. destruct p as [|c p]; [contradiction|].
  cbn [node_at rewritten set_node nodes]. apply lookup_insert_eq.
Qed.

Lemma node_at_rewritten_other (p q : list string) (text : string) (d : disk) :
  q <> p -> node_at (rewritten p text d) q = node_at d q.
Proof.
  intros Hq. destruct q as [|c q]; [reflexivity|].
  cbn [node_at rewritten set_node nodes].
  rewrite !lookup_insert_ne by (intros E; now apply Hq). reflexivity.
Qed.

Lemma history_path_nonempty (d : disk) (user_id : string) :
  history_path d user_id <> [].
Proof. unfold history_path. now destruct (cwd d). Qed.

Lemma storable_rewritten (d : disk) (user_id other : string) (text : string) :
  storable (rewritten (history_path d user_id) text d) other = storable d other.
Proof.
  unfold storable. cbn [cwd NAME_MAX PATH_MAX rewritten set_node].
  change (set_node (history_path d user_id) (File text)
            (set_node (history_path d user_id) (File "") d))
    with (rewritten (history_path d user_id) text d).
  rewrite node_at_rewritten_other; [reflexivity|].
  intros E. symmetry in E. exact (history_path_not_dir _ _ E).
Qed.

Lemma resolve_rewritten (d : disk) (user_id other : string) (text : string) :
  plain_name other = true ->
  resolve (rewritten (history_path d user_id) text d) (history_filename other)
  = resolve d (history_filename other).
Proof.
  intros Ho. rewrite !(resolve_history _ _ Ho).
  rewrite node_at_rewritten_other; [reflexivity|].
  intros E. symmetry in E. exact (history_path_not_dir _ _ E).
Qed.

(** Unfolds the plumbing of [D]. *)
Ltac run_D :=
  cbv beta iota zeta delta [bind_D unit_D lift_D path_exists open_read open_write
                       write json_dump].

Section Store.
Context `{Interpreter}.

(** What [json.dump] wrote, [json.load] reads back. *)
Lemma json_load_dumped (indent : nat) (v : json) :
  dump_raises v = None -> json_load_or_empty (json_dumps indent v) = Ok v.
Proof.
  intros Hv. unfold json_load_or_empty, json_load.
  rewrite (TextFacts.utf8_valid_ascii _ (json_dumps_ascii indent v)).
  rewrite (dumped_loads indent v Hv), json_loads_dumps. reflexivity.
Qed.

(** [json.load] raises [JSONDecodeError] on bytes that decode to a text
    that is not JSON and on which it raises nothing else. *)
Lemma json_load_rejects (bytes : string) :
  utf8_valid bytes = true /\ load_raises bytes = None /\ json_loads bytes = None ->
  json_load bytes = Raise JSONDecodeError.
Proof. intros (Hvalid & Hnone & Hjson). unfold json_load. now rewrite Hvalid, Hnone, Hjson. Qed.

(** A plain identifier that cannot be stored has a path that leads
    nowhere. *)
Lemma resolve_unstorable (d : disk) (user_id : string) :
  plain_name user_id = true -> storable d user_id = false ->
  exists e, resolve d (history_filename user_id) = inl e.
Proof.
  intros Hu Hs. rewrite (resolve_history _ _ Hu).
  unfold storable in Hs. rewrite Hu in Hs. cbn [andb] in Hs.
  destruct (Nat.leb_spec (PATH_MAX d) (String.length (history_filename user_id)))
    as [Hp|Hp]; [now eexists|].
  destruct (Nat.ltb _ 7); [now eexists|].
  destruct (node_at d (cwd d ++ ["history"])) as [[|bytes]|]; try now eexists.
  destruct (Nat.ltb_spec (NAME_MAX d) (String.length (user_id +:+ "_history.json")))
    as [Hm|Hm]; [now eexists|].
  apply Nat.leb_le in Hm. apply Nat.ltb_lt in Hp. rewrite Hm, Hp in Hs.
  discriminate Hs.
Qed.

Lemma load_history_on_disk (user_id : string) (d : disk) :
  load_history user_id d =
  (if has_nul (history_filename user_id) then Ok (JArr [])
   else match resolve d (history_filename user_id) with
        | inl _ => Ok (JArr [])
        | inr p => stored_at (node_at d p)
        end, d).
Proof.
  unfold load_history, stored_at. run_D.
  destruct (has_nul _); [reflexivity|].
  destruct (resolve d _) as [e|p] eqn:Hr; [reflexivity|].
  destruct (node_at d p) as [[|bytes]|] eqn:E; cbv beta iota;
    rewrite ?Hr, ?E; reflexivity.
Qed.

Lemma load_history_storable (user_id : string) (d : disk) :
  storable d user_id = true ->
  load_history user_id d = (stored_at (node_at d (history_path d user_id)), d).
Proof.
  intros (Hn & Hr & _)%resolve_storable.
  now rewrite load_history_on_disk, Hn, Hr.
Qed.

(** [save_history] in full, for an identifier that can be stored. *)
Lemma save_history_storable (now : datetime) (user_id occasion weather style : string)
    (recommendation clothing_type : json) (d : disk) :
  storable d user_id = true ->
  save_history now user_id occasion weather style recommendation clothing_type d =
  match stored_at (node_at d (history_path d user_id)) with
  | Raise e => (Raise e, d)
  | Ok data =>
      match list_append data (history_entry user_id occasion weather style
                                recommendation clothing_type (strftime now)) with
      | Raise e => (Raise e, d)
      | Ok data' =>
          match dump_raises data' with
          | Some e =>
              (Raise e, rewritten (history_path d user_id) (dump_partial data') d)
          | None =>
              (Ok true, rewritten (history_path d user_id) (json_dumps 2 data') d)
          end
      end
  end.
Proof.
  intros (Hn & Hr & Hp)%resolve_storable.
  unfold save_history, stored_at. run_D. rewrite Hn, Hr.
  destruct (node_at d (history_path d user_id)) as [[|bytes]|] eqn:E;
    cbv beta iota; rewrite ?Hr, ?E; cbv beta iota; [reflexivity| |].
  - destruct (json_load_or_empty bytes) as [data|e]; [|reflexivity].
    destruct (list_append data _) as [data'|e]; [|reflexivity].
    rewrite Hr, E, Hp. destruct (dump_raises data'); reflexivity.
  - destruct (list_append (JArr []) _) as [data'|e]; [|reflexivity].
    rewrite ?Hr, ?E, ?Hp. destruct (dump_raises data'); reflexivity.
Qed.

(** One append on a disk where the user's history is a list. *)
Lemma save_history_list_on_disk (now : datetime) (user_id occasion weather style : string)
    (recommendation clothing_type : json) (d : disk) (before : list json) :
  storable d user_id = true ->
  fst (load_history user_id d) = Ok (JArr before) ->
  let data := JArr (before ++ [history_entry user_id occasion weather style
                                 recommendation clothing_type (strftime now)]) in
  dump_raises data = None ->
  let d' := rewritten (history_path d user_id) (json_dumps 2 data) d in
  save_history now user_id occasion weather style recommendation clothing_type d
    = (Ok true, d') /\
  storable d' user_id = true /\
  load_history user_id d' = (Ok data, d').
Proof.
  intros Hs Hload data Hroom d'.
  rewrite (load_history_storable _ _ Hs) in Hload. cbn [fst] in Hload.
  assert (Hs' : storable d' user_id = true)
    by (unfold d'; now rewrite storable_rewritten).
  split; [|split; [exact Hs'|]].
  - rewrite (save_history_storable _ _ _ _ _ _ _ _ Hs), Hload.
    cbn [list_append]. fold data. now rewrite Hroom.
  - rewrite (load_history_storable _ _ Hs').
    unfold d' at 1 2. cbn [history_path cwd rewritten set_node].
    change (set_node (history_path d user_id) (File (json_dumps 2 data))
              (set_node (history_path d user_id) (File "") d))
      with (rewritten (history_path d user_id) (json_dumps 2 data) d).
    fold (history_path d user_id).
    rewrite (node_at_rewritten _ _ _ (history_path_nonempty d user_id)).
    cbn [stored_at]. now rewrite (json_load_dumped 2 data Hroom).
Qed.

(** The history of another plain identifier is as it was. *)
Lemma load_history_rewritten_other (d : disk) (user_id other : string)
    (text : string) :
  plain_name other = true -> other <> user_id ->
  fst (load_history other (rewritten (history_path d user_id) text d))
  = fst (load_history other d).
Proof.
  intros Ho Hne. rewrite !load_history_on_disk. cbn [fst].
  rewrite (resolve_rewritten _ _ _ _ Ho).
  destruct (has_nul _); [reflexivity|].
  rewrite (resolve_history _ _ Ho).
  destruct (Nat.leb _ _); [reflexivity|].
  destruct (Nat.ltb _ 7); [reflexivity|].
  destruct (node_at d (cwd d ++ ["history"])) as [[|bytes]|]; try reflexivity.
  destruct (Nat.ltb _ _); [reflexivity|].
  rewrite node_at_rewritten_other; [reflexivity|].
  intros E. apply Hne. exact (history_path_inj _ _ _ E).
Qed.

(** [save_history] for a plain identifier changes at most the user's own
    file. *)
Lemma save_history_frame (now : datetime) (user_id occasion weather style : string)
    (recommendation clothing_type : json) (d : disk) :
  plain_name user_id = true ->
  let d' := snd (save_history now user_id occasion weather style recommendation
                   clothing_type d) in
  d' = d \/ exists text, d' = rewritten (history_path d user_id) text d.
Proof.
  intros Hu. destruct (storable d user_id) eqn:Hs.
  - rewrite (save_history_storable _ _ _ _ _ _ _ _ Hs).
    destruct (stored_at _) as [data|e]; [|now left].
    destruct (list_append data _) as [data'|e]; [|now left].
    destruct (dump_raises data'); right; eexists; reflexivity.
  - destruct (resolve_unstorable _ _ Hu Hs) as (e & Hr).
    pose proof (history_filename_no_nul _ Hu) as Hn.
    unfold save_history. run_D. rewrite Hn, Hr. cbv beta iota.
    rewrite ?Hn, ?Hr. now left.
Qed.

(** [save_history] returns [True] or raises. *)
Lemma save_history_not_false (now : datetime)
    (user_id occasion weather style : string)
    (recommendation clothing_type : json) (d : disk) :
  fst (save_history now user_id occasion weather style recommendation
         clothing_type d) <> Ok false.
Proof.
  unfold save_history. run_D.
  destruct (has_nul _) eqn:Hn; cbv beta iota.
  - destruct (list_append (JArr []) _) as [data'|e]; discriminate.
  - destruct (resolve d _) as [e|p] eqn:Hr; cbv beta iota.
    + destruct (list_append (JArr []) _) as [data'|e']; [|discriminate].
      rewrite ?Hn, ?Hr. discriminate.
    + destruct (node_at d p) as [[|bytes]|] eqn:E; cbv beta iota;
        rewrite ?Hn, ?Hr, ?E; cbv beta iota; [discriminate| |].
      * destruct (json_load_or_empty bytes) as [data|e]; [|discriminate].
        destruct (list_append data _) as [data'|e]; [|discriminate].
        rewrite ?Hn, ?Hr, ?E.
        destruct (node_at d (removelast p)) as [[|b]|]; try discriminate.
        destruct (dump_raises data'); discriminate.
      * destruct (list_append (JArr []) _) as [data'|e]; [|discriminate].
        rewrite ?Hn, ?Hr, ?E.
        destruct (node_at d (removelast p)) as [[|b]|]; try discriminate.
        destruct (dump_raises data'); discriminate.
Qed.

End Store.

End DiskFacts.

(** ** The map of files and the disk

    For an identifier that can be stored, [load_history] and
    [save_history] over the map of [world] return what they return on a
    disk that the map shows, as long as [json.dump] stays within its
    nesting. *)
Section FlatStore.
Context `{Interpreter}.

Lemma load_history_shown (user_id : string) (w : world) (d : Disk.disk) :
  Disk.storable d user_id = true -> Disk.shown w d user_id ->
  fst (load_history user_id w) = fst (Disk.load_history user_id d).
Proof.
  intros Hs Hshown. unfold Disk.shown in Hshown.
  rewrite load_history_run, (DiskFacts.load_history_storable _ _ Hs).
  cbn [fst]. unfold stored_history, Disk.stored_at.
  destruct (Disk.node_at d (Disk.history_path d user_id)) as [[|bytes]|];
    [contradiction| |now rewrite Hshown].
  destruct Hshown as (-> & Hvalid & Hroom).
  unfold Disk.json_load_or_empty, Disk.json_load. rewrite Hvalid, Hroom.
  destruct (json_loads bytes); reflexivity.
Qed.

Lemma save_history_shown (user_id occasion weather style : string)
    (recommendation clothing_type : json) (w : world) (d : Disk.disk) :
  Disk.storable d user_id = true -> Disk.shown w d user_id ->
  (forall data,
     list_append (stored_history user_id w)
       (entry_at w user_id occasion weather style recommendation clothing_type)
     = Ok data -> dump_raises data = None) ->
  let run := save_history user_id occasion weather style recommendation
               clothing_type w in
  let run_on_disk := Disk.save_history (clock w) user_id occasion weather style
                       recommendation clothing_type d in
  fst run = fst run_on_disk /\
  Disk.storable (snd run_on_disk) user_id = true /\
  Disk.shown (snd run) (snd run_on_disk) user_id.
Proof.
  intros Hs Hshown Hroom run run_on_disk.
  pose proof (load_history_shown user_id w d Hs Hshown) as Hload.
  rewrite load_history_run, (DiskFacts.load_history_storable _ _ Hs) in Hload.
  cbn [fst] in Hload.
  unfold run, run_on_disk.
  rewrite save_history_run, (DiskFacts.save_history_storable _ _ _ _ _ _ _ _ Hs).
  rewrite <- Hload. unfold entry_at in *.
  destruct (list_append (stored_history user_id w) _) as [data|e] eqn:E.
  - rewrite (Hroom data eq_refl). cbn [fst snd].
    split; [reflexivity|]. split; [now rewrite DiskFacts.storable_rewritten|].
    unfold Disk.shown.
    change (Disk.history_path (Disk.rewritten _ _ d) user_id)
      with (Disk.history_path d user_id).
    rewrite (DiskFacts.node_at_rewritten _ _ _
               (DiskFacts.history_path_nonempty d user_id)).
    unfold write_history. cbn [files set_files]. rewrite lookup_insert_eq.
    split; [reflexivity|]. split.
    + apply TextFacts.utf8_valid_ascii, json_dumps_ascii.
    + apply dumped_loads, (Hroom data eq_refl).
  - cbn [fst snd]. split; [reflexivity|]. split; [exact Hs | exact Hshown].
Qed.

End FlatStore.

Section DiskClaims.
Context `{Interpreter}.

(** C1. For every user identifier that can be stored (a plain name, the
    directory [history] there, name and path within the limits) and every
    entry: when [load_history] returns a list for that user and
    [json.dump] raises nothing on the list with the new entry,
    [save_history] returns [True], and [load_history] afterwards returns a
    list whose last element is the entry just built and whose length is
    one more than before. *)
Theorem append_then_load_stored_identifier
    (now : datetime) (user_id occasion weather style : string)
    (recommendation clothing_type : json) (d : Disk.disk) (before : list json) :
  Disk.storable d user_id = true ->
  fst (Disk.load_history user_id d) = Ok (JArr before) ->
  dump_raises
    (JArr (before ++ [history_entry user_id occasion weather style
                        recommendation clothing_type (strftime now)])) = None ->
  exists d' after,
    Disk.save_history now user_id occasion weather style recommendation
      clothing_type d = (Ok true, d') /\
    fst (Disk.load_history user_id d') = Ok (JArr after) /\
    last after = Some (history_entry user_id occasion weather style
                         recommendation clothing_type (strftime now)) /\
    length after = S (length before).
Proof.
  intros Hs Hload Hroom.
  destruct (DiskFacts.save_history_list_on_disk now user_id occasion weather style
              recommendation clothing_type d before Hs Hload Hroom)
    as (Hsave & _ & Hafter).
  eexists _, _. split; [exact Hsave|].
  rewrite Hafter. split; [reflexivity|]. split.
  - apply last_snoc.
  - rewrite length_app. cbn. lia.
Qed.

(** C7. [load_history] returns the empty list, raises nothing and leaves
    the disk as it is when [os.path.exists] finds no history file for the
    user, and also when the file is there and holds bytes that decode to a
    text that is not JSON and on which [json.load] raises nothing else:
    the case in which it raises [JSONDecodeError]. *)
Theorem load_history_absent_or_rejected (user_id : string) (d : Disk.disk) :
  (Disk.absent d user_id \/
   exists bytes,
     Disk.holds d user_id bytes /\ utf8_valid bytes = true /\
     load_raises bytes = None /\ json_loads bytes = None) ->
  Disk.load_history user_id d = (Ok (JArr []), d).
Proof.
  unfold Disk.absent, Disk.holds, Disk.load_history.
  intros [Habsent | (bytes & (Hthere & Hopen) & Hrejected)].
  - unfold Disk.bind_D.
    destruct (Disk.path_exists (history_filename user_id) d) as [r d0] eqn:E.
    cbn [fst] in Habsent. subst r.
    unfold Disk.path_exists in E. injection E as _ <-. reflexivity.
  - apply DiskFacts.json_load_rejects in Hrejected.
    unfold Disk.bind_D.
    destruct (Disk.path_exists (history_filename user_id) d) as [r d0] eqn:E.
    cbn [fst] in Hthere. subst r.
    unfold Disk.path_exists in E. injection E as _ <-.
    destruct (Disk.open_read (history_filename user_id) d) as [r d1] eqn:E1.
    cbn [fst] in Hopen. subst r.
    assert (d1 = d) as ->.
    { unfold Disk.open_read in E1. now injection E1. }
    unfold Disk.lift_D, Disk.json_load_or_empty. now rewrite Hrejected.
Qed.

(** C10. For a user identifier that can be stored, on a disk where the
    user's history is a list, and when [json.dump] raises nothing on the
    new list: [save_history] returns [True] and the file then holds the
    old list followed by an entry that has exactly the seven fields,
    [clothing_type] among them with the value passed, which is [None],
    written as null, when the argument is left out.  On no disk and for no
    identifier does [save_history] return [False]. *)
Theorem save_history_entry_and_return
    (now : datetime) (user_id occasion weather style : string)
    (recommendation clothing_type : json) (d : Disk.disk) (before : list json) :
  Disk.storable d user_id = true ->
  fst (Disk.load_history user_id d) = Ok (JArr before) ->
  (dump_raises
     (JArr (before ++ [history_entry user_id occasion weather style
                         recommendation clothing_type (strftime now)])) = None ->
   exists d' o,
     Disk.save_history now user_id occasion weather style recommendation
       clothing_type d = (Ok true, d') /\
     Disk.node_at d' (Disk.history_path d user_id)
       = Some (Disk.File (json_dumps 2 (JArr (before ++ [JObj o])))) /\
     Disk.load_history user_id d' = (Ok (JArr (before ++ [JObj o])), d') /\
     dict_keys o = entry_fields /\
     dict_get "clothing_type" o = Some clothing_type) /\
  (dump_raises
     (JArr (before ++ [history_entry user_id occasion weather style
                         recommendation JNull (strftime now)])) = None ->
   exists d' o,
     Disk.save_history_default now user_id occasion weather style recommendation d
       = (Ok true, d') /\
     Disk.node_at d' (Disk.history_path d user_id)
       = Some (Disk.File (json_dumps 2 (JArr (before ++ [JObj o])))) /\
     Disk.load_history user_id d' = (Ok (JArr (before ++ [JObj o])), d') /\
     dict_keys o = entry_fields /\
     dict_get "clothing_type" o = Some JNull) /\
  (forall (now0 : datetime) (user_id0 occasion0 weather0 style0 : string)
          (recommendation0 clothing_type0 : json) (d0 : Disk.disk),
     fst (Disk.save_history now0 user_id0 occasion0 weather0 style0
            recommendation0 clothing_type0 d0) <> Ok false).
Proof.
  intros Hs Hload. split; [|split].
  - intros Hroom.
    destruct (DiskFacts.save_history_list_on_disk now user_id occasion weather style
                recommendation clothing_type d before Hs Hload Hroom)
      as (Hsave & _ & Hafter).
    eexists _, _. split; [exact Hsave|].
    split; [exact (DiskFacts.node_at_rewritten _ _ _
                     (DiskFacts.history_path_nonempty d user_id))|].
    split; [exact Hafter|]. split; reflexivity.
  - intros Hroom.
    destruct (DiskFacts.save_history_list_on_disk now user_id occasion weather style
                recommendation JNull d before Hs Hload Hroom)
      as (Hsave & _ & Hafter).
    eexists _, _. split; [exact Hsave|].
    split; [exact (DiskFacts.node_at_rewritten _ _ _
                     (DiskFacts.history_path_nonempty d user_id))|].
    split; [exact Hafter|]. split; reflexivity.
  - intros. apply DiskFacts.save_history_not_false.
Qed.

(** X1. An append for one plain identifier, whatever comes of it, leaves
    what [load_history] returns for every other plain identifier as it
    was. *)
Theorem save_history_other_identifier
    (now : datetime) (user_id other occasion weather style : string)
    (recommendation clothing_type : json) (d : Disk.disk) :
  Disk.plain_name user_id = true -> Disk.plain_name other = true ->
  other <> user_id ->
  fst (Disk.load_history other
         (snd (Disk.save_history now user_id occasion weather style
                 recommendation clothing_type d)))
  = fst (Disk.load_history other d).
Proof.
  intros Hu Ho Hne.
  destruct (DiskFacts.save_history_frame now user_id occasion weather style
              recommendation clothing_type d Hu) as [-> | (text & ->)].
  - reflexivity.
  - exact (DiskFacts.load_history_rewritten_other d user_id other text Ho Hne).
Qed.

(** X13. From a disk on which the history of every user of the calls can
    be stored and is a list, and when [json.dump] raises nothing on the
    lists that come about: a run of [save_history] calls for any mix of users
    and clock readings returns [True] at every call, and leaves the
    history of each plain identifier equal to the old list followed by
    the entries of that user's calls, in the order of the calls. *)
Theorem run_calls_return_and_histories (cs : list save_call) (d : Disk.disk) :
  (forall c, In c cs -> Disk.storable d (call_user c) = true) ->
  (forall c, In c cs ->
     exists l, fst (Disk.load_history (call_user c) d) = Ok (JArr l)) ->
  (forall c l k, In c cs ->
     fst (Disk.load_history (call_user c) d) = Ok (JArr l) ->
     dump_raises
       (JArr (l ++ map call_entry (take k (calls_of (call_user c) cs)))) = None) ->
  exists d',
    Disk.run_calls cs d = (Ok (map (fun _ => true) cs), d') /\
    forall user_id l,
      Disk.plain_name user_id = true ->
      fst (Disk.load_history user_id d) = Ok (JArr l) ->
      fst (Disk.load_history user_id d')
        = Ok (JArr (l ++ map call_entry (calls_of user_id cs))).
Proof.
  revert d. induction cs as [|c cs IH]; intros d Hst Hl Hroom.
  - exists d. split; [reflexivity|].
    intros user_id l _ Hload. cbn. now rewrite app_nil_r.
  - assert (Hc : In c (c :: cs)) by apply in_eq.
    destruct (Hl c Hc) as (l0 & Hl0).
    pose proof (Hst c Hc) as Hsc.
    assert (Hself : calls_of (call_user c) (c :: cs)
                    = c :: calls_of (call_user c) cs).
    { unfold calls_of. cbn [List.filter]. now rewrite String.eqb_refl. }
    assert (Hroom0 : dump_raises (JArr (l0 ++ [call_entry c])) = None).
    { pose proof (Hroom c l0 1 Hc Hl0) as Hr. now rewrite Hself in Hr. }
    destruct (DiskFacts.save_history_list_on_disk (call_time c) (call_user c)
                (call_occasion c) (call_weather c) (call_style c)
                (call_recommendation c) (call_clothing_type c) d l0 Hsc Hl0 Hroom0)
      as (Hsave & _ & Hafter).
    fold (call_entry c) in Hsave, Hafter.
    set (d1 := Disk.rewritten (Disk.history_path d (call_user c))
                 (json_dumps 2 (JArr (l0 ++ [call_entry c]))) d) in *.
    assert (Hother : forall u, Disk.plain_name u = true -> u <> call_user c ->
                     fst (Disk.load_history u d1) = fst (Disk.load_history u d)).
    { intros u Hu Hne. apply DiskFacts.load_history_rewritten_other; assumption. }
    assert (Hplain : forall u, Disk.storable d u = true -> Disk.plain_name u = true).
    { intros u Hu. unfold Disk.storable in Hu.
      repeat (apply andb_prop in Hu as [Hu _]). exact Hu. }
    assert (Hrest : forall u, u <> call_user c ->
                    calls_of u (c :: cs) = calls_of u cs).
    { intros u Hne. unfold calls_of. cbn [List.filter].
      destruct (String.eqb_spec (call_user c) u) as [E|_]; [|reflexivity].
      now destruct Hne. }
    destruct (IH d1) as (d' & Hrun & Hhist).
    + intros c' Hc'. unfold d1. rewrite DiskFacts.storable_rewritten.
      apply Hst. now right.
    + intros c' Hc'.
      destruct (String.eqb_spec (call_user c') (call_user c)) as [E|Hne].
      * rewrite E, Hafter. now eexists.
      * rewrite (Hother _ (Hplain _ (Hst c' (in_cons _ _ _ Hc'))) Hne).
        apply Hl. now right.
    + intros c' l k Hc' Hload.
      destruct (String.eqb_spec (call_user c') (call_user c)) as [E|Hne].
      * rewrite E in *. rewrite Hafter in Hload. cbn [fst] in Hload.
        injection Hload as <-.
        pose proof (Hroom c l0 (S k) Hc Hl0) as Hr.
        rewrite Hself in Hr. cbn [take map] in Hr.
        now rewrite <- app_assoc.
      * rewrite (Hother _ (Hplain _ (Hst c' (in_cons _ _ _ Hc'))) Hne) in Hload.
        rewrite <- (Hrest _ Hne). apply Hroom; [now right | exact Hload].
    + exists d'. split.
      * cbn [Disk.run_calls map]. unfold Disk.bind_D at 1. rewrite Hsave.
        unfold Disk.bind_D. rewrite Hrun. reflexivity.
      * intros u l Hu Hload.
        destruct (String.eqb_spec u (call_user c)) as [->|Hne].
        -- rewrite Hl0 in Hload. injection Hload as <-.
           rewrite Hself. cbn [map].
           rewrite (Hhist (call_user c) (l0 ++ [call_entry c])%list Hu).
           ++ now rewrite <- app_assoc.
           ++ now rewrite Hafter.
        -- rewrite (Hrest _ Hne). apply (Hhist u l Hu).
           now rewrite (Hother _ Hu Hne).
Qed.

End DiskClaims.

(** C1 at user 42 on the disk as the page leaves it at start-up. *)
Lemma append_then_load_stored_identifier_witness :
  exists d' after,
    Disk.save_history Demo.noon "42" "日常" "炎热" "休闲" (JStr "T恤和短裤") JNull
      DiskDemo.started = (Ok true, d') /\
    fst (Disk.load_history "42" d') = Ok (JArr after) /\
    last after = Some (history_entry "42" "日常" "炎热" "休闲" (JStr "T恤和短裤")
                         JNull "2025-06-01 12:00:00") /\
    length after = 1.
Proof.
  apply (append_then_load_stored_identifier Demo.noon "42" "日常" "炎热" "休闲"
           (JStr "T恤和短裤") JNull DiskDemo.started []);
    vm_compute; reflexivity.
Defined.

(** The identifier [a/b] names a file in a directory that is not there:
    [load_history] returns the empty list, and [save_history] raises at
    [open] and leaves no file, so that the list is as long as before. *)
Lemma append_slash_identifier_raises :
  fst (Disk.load_history "a/b" DiskDemo.started) = Ok (JArr []) /\
  fst (Disk.save_history Demo.noon "a/b" "日常" "炎热" "休闲" (JStr "T恤和短裤") JNull
         DiskDemo.started) = Raise FileNotFoundError /\
  fst (Disk.load_history "a/b"
         (snd (Disk.save_history Demo.noon "a/b" "日常" "炎热" "休闲"
                 (JStr "T恤和短裤") JNull DiskDemo.started))) = Ok (JArr []).
Proof. vm_compute. repeat split. Qed.

(** C7 at user 42, who has no file, and at user 7, whose file is not JSON. *)
Lemma load_history_absent_or_rejected_witness :
  Disk.load_history "42" DiskDemo.started = (Ok (JArr []), DiskDemo.started) /\
  Disk.load_history "7" DiskDemo.garbled = (Ok (JArr []), DiskDemo.garbled).
Proof.
  split.
  - apply (load_history_absent_or_rejected "42" DiskDemo.started).
    left. vm_compute. reflexivity.
  - apply (load_history_absent_or_rejected "7" DiskDemo.garbled).
    right. exists "not json". vm_compute. repeat split.
Defined.

(** The history file of user 42 holds the bytes FF FE, which are not
    JSON: [json.load] raises [UnicodeDecodeError], which is not the
    exception that is caught. *)
Lemma load_history_undecodable_raises :
  Disk.holds DiskDemo.scrambled "42" DiskDemo.byte_order_mark /\
  json_loads DiskDemo.byte_order_mark = None /\
  fst (Disk.load_history "42" DiskDemo.scrambled) = Raise UnicodeDecodeError.
Proof. vm_compute. repeat split. Qed.

(** C10 at user 42 on the disk as the page leaves it at start-up. *)
Lemma save_history_entry_and_return_witness :
  exists d' o,
    Disk.save_history_default Demo.noon "42" "日常" "炎热" "休闲" (JStr "T恤和短裤")
      DiskDemo.started = (Ok true, d') /\
    Disk.load_history "42" d' = (Ok (JArr [JObj o]), d') /\
    dict_keys o = entry_fields /\
    dict_get "clothing_type" o = Some JNull.
Proof.
  destruct (save_history_entry_and_return Demo.noon "42" "日常" "炎热" "休闲"
              (JStr "T恤和短裤") JNull DiskDemo.started [])
    as (_ & Hdefault & _); [vm_compute; reflexivity ..|].
  destruct Hdefault as (d' & o & Hsave & _ & Hload & Hkeys & Hnull);
    [vm_compute; reflexivity|].
  exists d', o. repeat split; assumption.
Defined.

(** The history file of user 7 holds an object: [save_history] raises at
    [data.append] and returns nothing. *)
Lemma save_history_not_a_list_raises :
  Disk.storable DiskDemo.tampered "7" = true /\
  fst (Disk.load_history "7" DiskDemo.tampered) = Ok (JObj []) /\
  fst (Disk.save_history Demo.noon "7" "工作" "寒冷" "正式" (JStr "大衣")
         (JStr "衬衫") DiskDemo.tampered) = Raise AttributeError.
Proof. vm_compute. repeat split. Qed.

(** X1 at users 42 and 7. *)
Lemma save_history_other_identifier_witness :
  fst (Disk.load_history "7"
         (snd (Disk.save_history Demo.noon "42" "日常" "炎热" "休闲"
                 (JStr "T恤和短裤") JNull DiskDemo.garbled)))
  = fst (Disk.load_history "7" DiskDemo.garbled).
Proof.
  apply (save_history_other_identifier Demo.noon "42" "7" "日常" "炎热" "休闲"
           (JStr "T恤和短裤") JNull DiskDemo.garbled);
    [reflexivity | reflexivity | discriminate].
Defined.

(** X13 on three calls for users 42, 7 and 42 on the disk as the page
    leaves it at start-up. *)
Lemma run_calls_return_and_histories_witness :
  exists d',
    Disk.run_calls Demo.calls DiskDemo.started = (Ok [true; true; true], d') /\
    forall user_id l,
      Disk.plain_name user_id = true ->
      fst (Disk.load_history user_id DiskDemo.started) = Ok (JArr l) ->
      fst (Disk.load_history user_id d')
        = Ok (JArr (l ++ map call_entry (calls_of user_id Demo.calls))).
Proof.
  apply (run_calls_return_and_histories Demo.calls DiskDemo.started).
  - intros c [<-|[<-|[<-|[]]]]; reflexivity.
  - intros c [<-|[<-|[<-|[]]]]; exists []; reflexivity.
  - intros c l k [<-|[<-|[<-|[]]]] [= <-];
      destruct k as [|[|[|k]]]; reflexivity.
Defined.

Example disk_run_calls_user_42 :
  fst (Disk.load_history "42" (snd (Disk.run_calls Demo.calls DiskDemo.started)))
  = Ok (JArr [call_entry Demo.first_call; call_entry Demo.third_call]).
Proof. vm_compute. reflexivity. Qed.

(** Start-up makes the directory, after which a decimal identifier can be
    stored; a second start-up finds the directory and leaves the disk as
    it is. *)
Example make_history_dir_twice :
  Disk.storable DiskDemo.empty_dir "42" = false /\
  Disk.storable DiskDemo.started "42" = true /\
  Disk.make_history_dir DiskDemo.started = (Ok tt, DiskDemo.started).
Proof. vm_compute. repeat split. Qed.

(** X2 at user 7, whose file holds an empty object. *)
Lemma save_history_not_a_list_witness :
  load_history "7" Demo.tampered = (Ok (JObj []), Demo.tampered) /\
  save_history "7" "日常" "炎热" "休闲" (JStr "T恤和短裤") JNull Demo.tampered
    = (Raise AttributeError, Demo.tampered).
Proof.
  apply (save_history_not_a_list "7" "日常" "炎热" "休闲" (JStr "T恤和短裤") JNull
           Demo.tampered (json_dumps 2 (JObj [])) (JObj [])).
  - vm_compute. reflexivity.
  - vm_compute. reflexivity.
  - discriminate.
Defined.


(** ** Classifier adapter *)

Section AdapterFacts.
Context `{Runtime}.

Lemma get_access_token_refused (w : world) (r : response) :
  token_answer w r -> status_code r <> 200%Z ->
  get_access_token w =
  (Ok JNull,
   log (EvStError "获取百度API令牌失败，请检查密钥")
     (log (EvGet (token_url (API_KEY w) (SECRET_KEY w))) w)).
Proof.
  intros Hget Hs. unfold get_access_token. run_M. rewrite Hget.
  destruct (Z.eqb_spec (status_code r) 200); [contradiction|reflexivity].
Qed.

Lemma classify_image_refused (img : image) (w : world) (r : response) :
  token_answer w r -> status_code r <> 200%Z ->
  classify_image img w =
  (Ok (JStr "认证失败"),
   log (EvStError "获取百度API令牌失败，请检查密钥")
     (log (EvGet (token_url (API_KEY w) (SECRET_KEY w))) w)).
Proof.
  intros Hget Hs. unfold classify_image, bind at 1.
  rewrite (get_access_token_refused w r Hget Hs). reflexivity.
Qed.

Lemma get_access_token_granted (w : world) (r : response) (body tok : json) :
  token_answer w r -> status_code r = 200%Z ->
  json_loads (text r) = Some body -> getitem_key body "access_token" = Ok tok ->
  get_access_token w =
  (Ok tok, log (EvGet (token_url (API_KEY w) (SECRET_KEY w))) w).
Proof.
  intros Hget Hs Hbody Htok. unfold get_access_token, response_json. run_M.
  rewrite Hget, Hs, Hbody, Htok. reflexivity.
Qed.

Lemma classify_image_answered (img : image) (w : world) (r : response) :
  classifier_answer w img r ->
  fst (classify_image img w) =
  if Z.eqb (status_code r) 200 then
    match json_loads (text r) with
    | None => Raise JSONDecodeError
    | Some (JObj o) =>
        match dict_get "result" o with
        | None => Ok (JStr "未识别出服装类型")
        | Some (JArr []) | Some (JStr EmptyString) | Some (JObj []) =>
            Ok (JStr "未识别出服装类型")
        | Some (JArr (first :: _)) => getitem_key first "keyword"
        | Some (JStr (String _ _)) => Raise TypeError
        | Some (JObj (_ :: _)) => Raise (KeyError "0")
        | Some _ => Raise TypeError
        end
    | Some (JArr l) => if existsb (is_str "result") l then Raise TypeError
                       else Ok (JStr "未识别出服装类型")
    | Some (JStr s) => if is_substring "result" s then Raise TypeError
                       else Ok (JStr "未识别出服装类型")
    | Some _ => Raise TypeError
    end
  else Ok (JStr ("API调用失败: " +:+ text r)).
Proof.
  intros (rt & body & tok & jpeg & Hget & Hs & Hbody & Htok & Htruthy & Hjpeg & Hpost).
  unfold classify_image, bind at 1.
  rewrite (get_access_token_granted w rt body tok Hget Hs Hbody Htok).
  rewrite Htruthy. unfold response_json. run_M. cbn [negb http_post log].
  rewrite Hjpeg, Hpost.
  destruct (Z.eqb (status_code r) 200); [|reflexivity].
  destruct (json_loads (text r)) as [[| | | | s | l | o]|]; try reflexivity.
  - cbn. destruct (is_substring "result" s); reflexivity.
  - cbn. destruct (existsb (is_str "result") l); reflexivity.
  - cbn. destruct (dict_get "result" o) as [[| | | | [|c s] | [|first l] | [|kv o']]|];
      reflexivity.
Qed.

End AdapterFacts.

Section AdapterClaims.
Context `{Runtime}.

(** C3. Whatever response with a status other than 200 the token endpoint
    gives, [get_access_token] returns [None], and [classify_image] then
    returns without a POST to the classification endpoint. *)
Theorem non_200_token_no_classification (img : image) (w : world) (r : response) :
  token_answer w r -> status_code r <> 200%Z ->
  fst (get_access_token w) = Ok JNull /\
  exists w', classify_image img w = (Ok (JStr "认证失败"), w') /\
             posts (events w') = posts (events w).
Proof.
  intros Hget Hs. split.
  - now rewrite (get_access_token_refused w r).
  - eexists. split; [exact (classify_image_refused img w r Hget Hs)|].
    cbn [events log]. unfold posts. rewrite <- !app_assoc, List.filter_app.
    cbn. apply app_nil_r.
Qed.

(** C4. When the classification endpoint answers 200 with an object whose
    [result] is a non-empty list, [classify_image] returns the [keyword]
    of the first element of that list. *)
Theorem classify_image_first_keyword (img : image) (w : world) (r : response)
    (o : list (string * json)) (first : json) (rest : list json) (k : json) :
  classifier_answer w img r -> status_code r = 200%Z ->
  json_loads (text r) = Some (JObj o) ->
  dict_get "result" o = Some (JArr (first :: rest)) ->
  getitem_key first "keyword" = Ok k ->
  fst (classify_image img w) = Ok k.
Proof.
  intros Hans Hs Hbody Hres Hk.
  rewrite (classify_image_answered img w r Hans), Hs, Hbody, Hres.
  exact Hk.
Qed.

(** C5. When the classification endpoint answers 200 with an object whose
    [result] is the empty list, or that has no [result], [classify_image]
    returns the one fixed string for an unrecognised picture. *)
Theorem classify_image_unrecognized (img : image) (w : world) (r : response)
    (o : list (string * json)) :
  classifier_answer w img r -> status_code r = 200%Z ->
  json_loads (text r) = Some (JObj o) ->
  (dict_get "result" o = Some (JArr []) \/ dict_get "result" o = None) ->
  fst (classify_image img w) = Ok (JStr "未识别出服装类型").
Proof.
  intros Hans Hs Hbody Hres.
  rewrite (classify_image_answered img w r Hans), Hs, Hbody.
  destruct Hres as [-> | ->]; reflexivity.
Qed.

(** C6, as the code has it.  When the classification endpoint answers with
    a status other than 200, [classify_image] returns the fixed prefix
    followed by the text of the response. *)
Theorem classify_image_api_failure (img : image) (w : world) (r : response) :
  classifier_answer w img r -> status_code r <> 200%Z ->
  fst (classify_image img w) = Ok (JStr ("API调用失败: " +:+ text r)).
Proof.
  intros Hans Hs.
  rewrite (classify_image_answered img w r Hans).
  destruct (Z.eqb_spec (status_code r) 200); [contradiction|reflexivity].
Qed.

(** C2, as the code has it.  When the token endpoint answers with a status
    other than 200, the page shows the error and nothing is posted to the
    classifier, and [recommend_outfit_by_image] goes on: it calls the text
    model once, with the prompt built around the string that
    [classify_image] returned, and returns the generated text with that
    string as the clothing type. *)
Theorem auth_failure_flow_continues (img : image) (weather occasion : string)
    (w : world) (r : response) :
  token_answer w r -> status_code r <> 200%Z ->
  let prompt := "为" +:+ weather +:+ "天气的" +:+ occasion
                +:+ "场合，推荐一套包含" +:+ "认证失败" +:+ "的穿搭：" in
  events (snd (recommend_outfit_by_image img weather occasion w)) =
    (events w ++ [EvGet (token_url (API_KEY w) (SECRET_KEY w));
                  EvStError "获取百度API令牌失败，请检查密钥";
                  EvGenerate prompt 150 1])%list /\
  forall response first generated,
    text_model w prompt 150 1 = Ok response ->
    getitem_0 response = Ok first ->
    getitem_key first "generated_text" = Ok generated ->
    fst (recommend_outfit_by_image img weather occasion w)
      = Ok (generated, JStr "认证失败").
Proof.
  intros Hget Hs prompt.
  unfold recommend_outfit_by_image. run_M.
  rewrite (classify_image_refused img w r Hget Hs).
  unfold image_prompt. rewrite py_format_str. fold prompt.
  cbn [text_model log events]. split.
  - destruct (text_model w prompt 150 1) as [resp|e];
      [destruct (getitem_0 resp) as [f|e];
         [destruct (getitem_key f "generated_text")|]|];
      cbn [snd events log]; rewrite <- !app_assoc; reflexivity.
  - intros response first generated Hmodel Hfirst Htext.
    rewrite Hmodel, Hfirst, Htext. reflexivity.
Qed.

(** C8. [generate_outfit] sends the text model a prompt that is the same
    string in every world for the same occasion, weather and style, and is
    never empty; when the pipeline returns the prompt followed by its
    continuation as the first sequence, [generate_outfit] returns that
    text, a non-empty string. *)
Theorem generate_outfit_prompt_and_text (occasion weather : string)
    (style : option string) (w w2 : world)
    (o : list (string * json)) (rest : list json) (continuation : string) :
  text_model w (outfit_prompt occasion weather style) 150 1
    = Ok (JArr (JObj o :: rest)) ->
  dict_get "generated_text" o
    = Some (JStr (outfit_prompt occasion weather style +:+ continuation)) ->
  (exists s, fst (generate_outfit occasion weather style w) = Ok (JStr s) /\ s <> "") /\
  (exists prompt,
     prompt <> "" /\
     events (snd (generate_outfit occasion weather style w))
       = (events w ++ [EvGenerate prompt 150 1])%list /\
     generations (events (snd (generate_outfit occasion weather style w2)))
       = (generations (events w2) ++ [EvGenerate prompt 150 1])%list).
Proof.
  intros Hmodel Htext.
  assert (Hne : forall t, outfit_prompt occasion weather style +:+ t <> "")
    by (intros t; discriminate).
  split.
  - eexists. split; [|apply (Hne continuation)].
    unfold generate_outfit. run_M. rewrite Hmodel.
    cbv beta iota delta [getitem_0 getitem_key]. rewrite Htext. reflexivity.
  - exists (outfit_prompt occasion weather style). split; [|split].
    + rewrite <- (StringFacts.append_empty_r (outfit_prompt _ _ _)). apply Hne.
    + unfold generate_outfit. run_M. rewrite Hmodel.
      cbv beta iota delta [getitem_0 getitem_key]. rewrite Htext. reflexivity.
    + unfold generate_outfit. run_M.
      destruct (text_model w2 _ 150 1) as [resp|e]; cbn [snd events log].
      * destruct (getitem_0 resp) as [f|e]; cbn [snd events log];
          [destruct (getitem_key f "generated_text"); cbn [snd events log]|];
          unfold generations; rewrite List.filter_app; reflexivity.
      * unfold generations; rewrite List.filter_app; reflexivity.
Qed.

End AdapterClaims.

(** C3 where the token endpoint answers 401. *)
Lemma non_200_token_no_classification_witness :
  fst (get_access_token Demo.denied) = Ok JNull /\
  exists w', classify_image Demo.photo Demo.denied = (Ok (JStr "认证失败"), w') /\
             posts (events w') = posts (events Demo.denied).
Proof.
  apply (non_200_token_no_classification Demo.photo Demo.denied
           {| status_code := 401; text := "invalid_client" |}).
  - reflexivity.
  - cbn. lia.
Defined.

Lemma granted_answers (answer : response) :
  classifier_answer (Demo.granted answer) Demo.photo answer.
Proof.
  exists {| status_code := 200;
            text := json_dumps 0 (JObj [("access_token", JStr "tok")]) |},
         (JObj [("access_token", JStr "tok")]), (JStr "tok"), "Man".
  repeat split.
Defined.

(** C4 on the response whose result is the one keyword T-shirt. *)
Lemma classify_image_first_keyword_witness :
  fst (classify_image Demo.photo (Demo.granted Demo.t_shirt)) = Ok (JStr "T-shirt").
Proof.
  apply (classify_image_first_keyword Demo.photo (Demo.granted Demo.t_shirt)
           Demo.t_shirt
           [("result", JArr [JObj [("keyword", JStr "T-shirt")]])]
           (JObj [("keyword", JStr "T-shirt")]) [] (JStr "T-shirt")).
  - apply granted_answers.
  - reflexivity.
  - vm_compute. reflexivity.
  - reflexivity.
  - reflexivity.
Defined.

(** C5 on a response with the empty result list and on one with no result. *)
Lemma classify_image_unrecognized_witness :
  fst (classify_image Demo.photo (Demo.granted Demo.nothing_found))
    = Ok (JStr "未识别出服装类型") /\
  fst (classify_image Demo.photo (Demo.granted Demo.no_result_field))
    = Ok (JStr "未识别出服装类型").
Proof.
  split.
  - apply (classify_image_unrecognized Demo.photo (Demo.granted Demo.nothing_found)
             Demo.nothing_found [("result", JArr [])]).
    + apply granted_answers.
    + reflexivity.
    + vm_compute. reflexivity.
    + left. reflexivity.
  - apply (classify_image_unrecognized Demo.photo (Demo.granted Demo.no_result_field)
             Demo.no_result_field [("error_code", JNum 216201)]).
    + apply granted_answers.
    + reflexivity.
    + vm_compute. reflexivity.
    + right. reflexivity.
Defined.

(** C6 as stated fails: on a 500 response with the text oops the returned
    string is not the text of the response. *)
Lemma classify_image_api_failure_is_not_the_body :
  classifier_answer (Demo.granted Demo.server_error) Demo.photo Demo.server_error /\
  status_code Demo.server_error <> 200%Z /\
  fst (classify_image Demo.photo (Demo.granted Demo.server_error))
    = Ok (JStr "API调用失败: oops") /\
  fst (classify_image Demo.photo (Demo.granted Demo.server_error))
    <> Ok (JStr (text Demo.server_error)).
Proof.
  split; [apply granted_answers|].
  split; [cbn; lia|].
  split; [vm_compute; reflexivity|].
  vm_compute. discriminate.
Qed.

(** C6 as the code has it, on the 500 response. *)
Lemma classify_image_api_failure_witness :
  fst (classify_image Demo.photo (Demo.granted Demo.server_error))
    = Ok (JStr ("API调用失败: " +:+ "oops")).
Proof.
  apply (classify_image_api_failure Demo.photo (Demo.granted Demo.server_error)
           Demo.server_error).
  - apply granted_answers.
  - cbn. lia.
Defined.

(** C2 as stated fails: the token endpoint answers 401,
    [get_access_token] returns [None], and the run of
    [recommend_outfit_by_image] still calls the text model and returns
    its text. *)
Lemma auth_failure_still_generates :
  token_answer Demo.denied {| status_code := 401; text := "invalid_client" |} /\
  fst (get_access_token Demo.denied) = Ok JNull /\
  generations (events (snd (recommend_outfit_by_image Demo.photo "炎热" "日常" Demo.denied)))
    = [EvGenerate "为炎热天气的日常场合，推荐一套包含认证失败的穿搭：" 150 1] /\
  fst (recommend_outfit_by_image Demo.photo "炎热" "日常" Demo.denied)
    = Ok (JStr "为炎热天气的日常场合，推荐一套包含认证失败的穿搭：白色T恤配牛仔裤",
          JStr "认证失败") /\
  fst (load_history "42"
         (snd (on_image_recommend "42" Demo.photo "日常" "炎热" "休闲" Demo.denied)))
    = Ok (JArr [history_entry "42" "日常" "炎热" "休闲"
                  (JStr "为炎热天气的日常场合，推荐一套包含认证失败的穿搭：白色T恤配牛仔裤")
                  (JStr "认证失败") "2025-06-01 12:00:00"]).
Proof.
  split; [reflexivity|].
  split; [reflexivity|].
  repeat split; vm_compute; reflexivity.
Qed.

(** C2 as the code has it, where the token endpoint answers 401. *)
Lemma auth_failure_flow_continues_witness :
  events (snd (recommend_outfit_by_image Demo.photo "炎热" "日常" Demo.denied)) =
    [EvGet (token_url "key" "secret");
     EvStError "获取百度API令牌失败，请检查密钥";
     EvGenerate "为炎热天气的日常场合，推荐一套包含认证失败的穿搭：" 150 1] /\
  forall response first generated,
    text_model Demo.denied "为炎热天气的日常场合，推荐一套包含认证失败的穿搭：" 150 1
      = Ok response ->
    getitem_0 response = Ok first ->
    getitem_key first "generated_text" = Ok generated ->
    fst (recommend_outfit_by_image Demo.photo "炎热" "日常" Demo.denied)
      = Ok (generated, JStr "认证失败").
Proof.
  apply (auth_failure_flow_continues Demo.photo "炎热" "日常" Demo.denied
           {| status_code := 401; text := "invalid_client" |}).
  - reflexivity.
  - cbn. lia.
Defined.

(** C8 on a daily occasion in hot weather, casual style. *)
Lemma generate_outfit_prompt_and_text_witness :
  (exists s, fst (generate_outfit "日常" "炎热" (Some "休闲") Demo.denied) = Ok (JStr s)
             /\ s <> "") /\
  (exists prompt,
     prompt <> "" /\
     events (snd (generate_outfit "日常" "炎热" (Some "休闲") Demo.denied))
       = [EvGenerate prompt 150 1] /\
     generations (events (snd (generate_outfit "日常" "炎热" (Some "休闲") Demo.bare)))
       = [EvGenerate prompt 150 1]).
Proof.
  apply (generate_outfit_prompt_and_text "日常" "炎热" (Some "休闲")
           Demo.denied Demo.bare
           [("generated_text",
             JStr (outfit_prompt "日常" "炎热" (Some "休闲") +:+ "白色T恤配牛仔裤"))]
           [] "白色T恤配牛仔裤").
  - reflexivity.
  - reflexivity.
Defined.

(** The first of several scored results gives the label. *)
Example classify_scored :
  fst (classify_image Demo.photo (Demo.granted Demo.scored)) = Ok (JStr "连衣裙").
Proof. vm_compute. reflexivity. Qed.

(** The text button: the entry it saves has [clothing_type] null. *)
Example on_text_recommend_saves_null :
  fst (load_history "42"
         (snd (on_text_recommend "42" "日常" "炎热" "休闲" Demo.denied)))
  = Ok (JArr [history_entry "42" "日常" "炎热" "休闲"
                (JStr "为炎热天气的日常场合推荐一套休闲风格的穿搭：白色T恤配牛仔裤")
                JNull "2025-06-01 12:00:00"]).
Proof. vm_compute. reflexivity. Qed.

Example outfit_prompt_casual :
  outfit_prompt "日常" "炎热" (Some "休闲") = "为炎热天气的日常场合推荐一套休闲风格的穿搭："
  /\ outfit_prompt "日常" "炎热" None = "为炎热天气的日常场合推荐一套风格的穿搭：".
Proof. split; reflexivity. Qed.

(** ** More on the classifier adapter *)

Section AdapterMore.
Context `{Runtime}.

(** [get_access_token] touches nothing but the event log. *)
Lemma get_access_token_frame (w : world) :
  let w' := snd (get_access_token w) in
  files w' = files w /\ clock w' = clock w /\ text_model w' = text_model w /\
  http_post w' = http_post w.
Proof.
  unfold get_access_token, response_json. run_M.
  destruct (http_get w _) as [r|e]; [|repeat split].
  destruct (Z.eqb (status_code r) 200); [|repeat split].
  destruct (json_loads (text r)) as [body|]; [|repeat split].
  destruct (getitem_key body "access_token"); repeat split.
Qed.

(** X3. On a 200 response [get_access_token] returns the [access_token]
    member of the body and shows no error; a body that is not JSON, is not
    an object, or has no such member makes it raise instead of returning
    [None]. *)
Theorem get_access_token_on_200 (w : world) (r : response) :
  token_answer w r -> status_code r = 200%Z ->
  get_access_token w =
  (match json_loads (text r) with
   | None => Raise JSONDecodeError
   | Some (JObj o) =>
       match dict_get "access_token" o with
       | Some tok => Ok tok
       | None => Raise (KeyError "access_token")
       end
   | Some _ => Raise TypeError
   end,
   log (EvGet (token_url (API_KEY w) (SECRET_KEY w))) w).
Proof.
  intros Hget Hs. unfold get_access_token, response_json. run_M.
  rewrite Hget, Hs. cbn [Z.eqb Pos.eqb].
  destruct (json_loads (text r)) as [[| | | | | |o]|]; reflexivity.
Qed.

(** A run of the body logs one GET of the token URL and at most the
    error after it. *)
Lemma get_access_token_events (w : world) :
  exists tail,
    events (snd (get_access_token w)) =
      (events w ++ EvGet (token_url (API_KEY w) (SECRET_KEY w)) :: tail)%list /\
    (tail = [] \/ tail = [EvStError "获取百度API令牌失败，请检查密钥"]).
Proof.
  unfold get_access_token, response_json. run_M.
  destruct (http_get w _) as [r|e].
  - destruct (Z.eqb (status_code r) 200).
    + exists []. split; [|now left].
      destruct (json_loads (text r)) as [body|]; [|reflexivity].
      destruct (getitem_key body "access_token"); reflexivity.
    + eexists. split; [|now right].
      cbn [snd events log]. now rewrite <- app_assoc.
  - exists []. split; [reflexivity|now left].
Qed.

(** X4. A call of [get_access_token] that finds no stored run, or one
    that has expired, runs the body: one request leaves, a GET of the
    token URL that carries the key and the secret, followed at most by the
    error; nothing is posted and no model is called.  An exception stores
    nothing.  A value returned, [None] after the error included, is
    stored, and any call less than 21600 seconds later makes no request:
    it returns that value and shows the error again if there was one. *)
Theorem cached_get_access_token_requests (now : N) (slot : option cached)
    (w : world) :
  live 21600 now slot = None ->
  exists tail,
    (tail = [] \/ tail = [EvStError "获取百度API令牌失败，请检查密钥"]) /\
    let '(r, slot', w') := cached_get_access_token now slot w in
    events w' =
      (events w ++ EvGet (token_url (API_KEY w) (SECRET_KEY w)) :: tail)%list /\
    (forall e, r = Raise e -> slot' = None) /\
    (forall v, r = Ok v ->
       forall (later : N) (w2 : world),
         N.ltb later (now + 21600) = true ->
         cached_get_access_token later slot' w2 = (Ok v, slot', replay tail w2)).
Proof.
  intros Hlive. unfold cached_get_access_token, cache_data at 1. rewrite Hlive.
  destruct (get_access_token_events w) as (tail & Hevents & Htail).
  exists tail. split; [exact Htail|].
  destruct (get_access_token w) as [[v|e] w'] eqn:Hbody; cbn [snd] in Hevents.
  - split; [exact Hevents|]. split; [discriminate|].
    intros v' [= <-] later w2 Hlater.
    unfold cache_data, live. cbn [cached_at cached_value cached_messages].
    rewrite Hlater, Hevents, drop_app_length.
    destruct Htail as [-> | ->]; reflexivity.
  - split; [exact Hevents|]. split; [reflexivity|]. discriminate.
Qed.

(** X5. A 200 token response whose [access_token] is empty, null or
    otherwise false makes [classify_image] return the authentication
    string with nothing posted and no error shown. *)
Theorem classify_image_falsy_token (img : image) (w : world) (r : response)
    (body tok : json) :
  token_answer w r -> status_code r = 200%Z ->
  json_loads (text r) = Some body ->
  getitem_key body "access_token" = Ok tok -> truthy tok = false ->
  classify_image img w =
  (Ok (JStr "认证失败"), log (EvGet (token_url (API_KEY w) (SECRET_KEY w))) w).
Proof.
  intros Hget Hs Hbody Htok Hfalse. unfold classify_image, bind at 1.
  rewrite (get_access_token_granted w r body tok Hget Hs Hbody Htok), Hfalse.
  reflexivity.
Qed.

(** X6. With a token granted, a picture that the JPEG encoder refuses
    makes [classify_image] raise the encoder's exception; nothing is
    posted. *)
Theorem classify_image_unencodable (img : image) (w : world) (r : response)
    (body tok : json) (e : exn) :
  token_answer w r -> status_code r = 200%Z ->
  json_loads (text r) = Some body ->
  getitem_key body "access_token" = Ok tok -> truthy tok = true ->
  save_jpeg img = Raise e ->
  classify_image img w =
  (Raise e, log (EvGet (token_url (API_KEY w) (SECRET_KEY w))) w).
Proof.
  intros Hget Hs Hbody Htok Htrue Himg. unfold classify_image. run_M.
  rewrite (get_access_token_granted w r body tok Hget Hs Hbody Htok), Htrue.
  cbn [negb]. rewrite Himg. reflexivity.
Qed.

(** With a token granted and the picture encoded, the run of
    [classify_image] ends in the world with the two requests logged. *)
Lemma classify_image_granted_world (img : image) (w : world) (r : response)
    (body tok : json) (jpeg : string) :
  token_answer w r -> status_code r = 200%Z ->
  json_loads (text r) = Some body ->
  getitem_key body "access_token" = Ok tok -> truthy tok = true ->
  save_jpeg img = Ok jpeg ->
  snd (classify_image img w) =
  log (EvPost (classify_url tok) (b64encode jpeg))
    (log (EvGet (token_url (API_KEY w) (SECRET_KEY w))) w).
Proof.
  intros Hget Hs Hbody Htok Htrue Himg. unfold classify_image, response_json. run_M.
  rewrite (get_access_token_granted w r body tok Hget Hs Hbody Htok), Htrue.
  cbn [negb http_post log]. rewrite Himg.
  destruct (http_post w _ _) as [a|e]; [|reflexivity].
  destruct (Z.eqb (status_code a) 200); [|reflexivity].
  destruct (json_loads (text a)) as [result|]; [|reflexivity].
  destruct (contains "result" result) as [[]|]; try reflexivity.
  destruct (getitem_key result "result") as [x|]; [|reflexivity].
  destruct (len_positive x) as [[]|]; try reflexivity.
  destruct (getitem_0 x) as [f|]; [|reflexivity].
  destruct (getitem_key f "keyword"); reflexivity.
Qed.

(** X7. With a token granted and the picture encoded, [classify_image]
    posts once, to the classification URL that carries the token, the
    base64 text of the JPEG bytes; this holds whatever the endpoint
    answers, and an exception of the transport is raised on. *)
Theorem classify_image_posts_once (img : image) (w : world) (r : response)
    (body tok : json) (jpeg : string) :
  token_answer w r -> status_code r = 200%Z ->
  json_loads (text r) = Some body ->
  getitem_key body "access_token" = Ok tok -> truthy tok = true ->
  save_jpeg img = Ok jpeg ->
  events (snd (classify_image img w)) =
    (events w ++ [EvGet (token_url (API_KEY w) (SECRET_KEY w));
                  EvPost (classify_url tok) (b64encode jpeg)])%list /\
  forall e, http_post w (classify_url tok) (b64encode jpeg) = Raise e ->
            fst (classify_image img w) = Raise e.
Proof.
  intros Hget Hs Hbody Htok Htrue Himg. split.
  - rewrite (classify_image_granted_world img w r body tok jpeg) by assumption.
    cbn [events log]. now rewrite <- app_assoc.
  - intros e Hpost. unfold classify_image. run_M.
    rewrite (get_access_token_granted w r body tok Hget Hs Hbody Htok), Htrue.
    cbn [negb http_post log]. rewrite Himg, Hpost. reflexivity.
Qed.

(** X8. A 200 answer of the classifier that is not JSON makes
    [classify_image] raise [JSONDecodeError], and one whose first result
    is an object without [keyword] makes it raise [KeyError] for that key;
    neither is turned into a string. *)
Theorem classify_image_malformed_answer_raises (img : image) (w : world)
    (r : response) :
  classifier_answer w img r -> status_code r = 200%Z ->
  (json_loads (text r) = None ->
   fst (classify_image img w) = Raise JSONDecodeError) /\
  (forall o fields rest,
     json_loads (text r) = Some (JObj o) ->
     dict_get "result" o = Some (JArr (JObj fields :: rest)) ->
     dict_get "keyword" fields = None ->
     fst (classify_image img w) = Raise (KeyError "keyword")).
Proof.
  intros Hans Hs.
  rewrite (classify_image_answered img w r Hans), Hs. cbn [Z.eqb Pos.eqb].
  split.
  - intros ->. reflexivity.
  - intros o fields rest -> Hresult Hk. cbn [getitem_key contains].
    rewrite Hresult. cbn [getitem_key]. now rewrite Hk.
Qed.

End AdapterMore.

(** X3 where the body of the 200 response has no token. *)
Lemma get_access_token_on_200_witness :
  get_access_token (Demo.token_body (JObj [("error", JStr "unsupported")])) =
  (Raise (KeyError "access_token"),
   log (EvGet (token_url "key" "secret"))
     (Demo.token_body (JObj [("error", JStr "unsupported")]))).
Proof.
  refine (eq_trans
    (get_access_token_on_200
       (Demo.token_body (JObj [("error", JStr "unsupported")]))
       {| status_code := 200;
          text := json_dumps 0 (JObj [("error", JStr "unsupported")]) |}
       _ _) _).
  - reflexivity.
  - reflexivity.
  - vm_compute. reflexivity.
Defined.

(** X5 where the token is the empty string. *)
Lemma classify_image_falsy_token_witness :
  classify_image Demo.photo (Demo.token_body (JObj [("access_token", JStr "")])) =
  (Ok (JStr "认证失败"),
   log (EvGet (token_url "key" "secret"))
     (Demo.token_body (JObj [("access_token", JStr "")]))).
Proof.
  apply (classify_image_falsy_token Demo.photo
           (Demo.token_body (JObj [("access_token", JStr "")]))
           {| status_code := 200;
              text := json_dumps 0 (JObj [("access_token", JStr "")]) |}
           (JObj [("access_token", JStr "")]) (JStr "")).
  - reflexivity.
  - reflexivity.
  - vm_compute. reflexivity.
  - reflexivity.
  - reflexivity.
Defined.

(** X6 on a picture the encoder refuses. *)
Lemma classify_image_unencodable_witness :
  classify_image Demo.transparent (Demo.granted Demo.t_shirt) =
  (Raise OSError,
   log (EvGet (token_url "key" "secret")) (Demo.granted Demo.t_shirt)).
Proof.
  apply (classify_image_unencodable Demo.transparent (Demo.granted Demo.t_shirt)
           {| status_code := 200;
              text := json_dumps 0 (JObj [("access_token", JStr "tok")]) |}
           (JObj [("access_token", JStr "tok")]) (JStr "tok") OSError).
  - reflexivity.
  - reflexivity.
  - vm_compute. reflexivity.
  - reflexivity.
  - reflexivity.
  - reflexivity.
Defined.

(** X7 on the three bytes Man, whose base64 text is TWFu. *)
Lemma classify_image_posts_once_witness :
  events (snd (classify_image Demo.photo (Demo.granted Demo.server_error))) =
    [EvGet (token_url "key" "secret"); EvPost (classify_url (JStr "tok")) "TWFu"] /\
  forall e, http_post (Demo.granted Demo.server_error)
              (classify_url (JStr "tok")) (b64encode "Man") = Raise e ->
            fst (classify_image Demo.photo (Demo.granted Demo.server_error)) = Raise e.
Proof.
  apply (classify_image_posts_once Demo.photo (Demo.granted Demo.server_error)
           {| status_code := 200;
              text := json_dumps 0 (JObj [("access_token", JStr "tok")]) |}
           (JObj [("access_token", JStr "tok")]) (JStr "tok") "Man").
  - reflexivity.
  - reflexivity.
  - vm_compute. reflexivity.
  - reflexivity.
  - reflexivity.
  - reflexivity.
Defined.

(** X8 on an answer that is not JSON and on one without a keyword. *)
Lemma classify_image_malformed_answer_raises_witness :
  fst (classify_image Demo.photo (Demo.granted Demo.not_json))
    = Raise JSONDecodeError /\
  fst (classify_image Demo.photo (Demo.granted Demo.no_keyword))
    = Raise (KeyError "keyword").
Proof.
  split.
  - apply (classify_image_malformed_answer_raises Demo.photo
             (Demo.granted Demo.not_json) Demo.not_json).
    + apply granted_answers.
    + reflexivity.
    + vm_compute. reflexivity.
  - apply (proj2 (classify_image_malformed_answer_raises Demo.photo
                    (Demo.granted Demo.no_keyword) Demo.no_keyword
                    (granted_answers _) eq_refl)
             [("result", JArr [JObj [("root", JStr "商品-服装")]])]
             [("root", JStr "商品-服装")] []).
    + vm_compute. reflexivity.
    + reflexivity.
    + reflexivity.
Defined.

(** X4 on the world whose token endpoint refuses the key, with nothing
    stored. *)
Lemma cached_get_access_token_requests_witness :
  exists tail,
    (tail = [] \/ tail = [EvStError "获取百度API令牌失败，请检查密钥"]) /\
    let '(r, slot', w') := cached_get_access_token 0 None Demo.denied in
    events w' =
      (events Demo.denied
       ++ EvGet (token_url (API_KEY Demo.denied) (SECRET_KEY Demo.denied))
       :: tail)%list /\
    (forall e, r = Raise e -> slot' = None) /\
    (forall v, r = Ok v ->
       forall (later : N) (w2 : world),
         N.ltb later (0 + 21600) = true ->
         cached_get_access_token later slot' w2 = (Ok v, slot', replay tail w2)).
Proof.
  apply (cached_get_access_token_requests 0 None Demo.denied). reflexivity.
Defined.

Example cached_get_access_token_twice :
  let '(r1, slot1, w1) := cached_get_access_token 100 None Demo.denied in
  let '(r2, slot2, w2) := cached_get_access_token 21699 slot1 w1 in
  let '(r3, slot3, w3) := cached_get_access_token 21700 slot2 w2 in
  r1 = Ok JNull /\ r2 = Ok JNull /\ r3 = Ok JNull /\
  List.filter is_get (events w1) = List.filter is_get (events w2) /\
  length (List.filter is_get (events w2)) = 1 /\
  length (List.filter is_get (events w3)) = 2.
Proof. vm_compute. repeat split. Qed.

Example classify_image_no_keyword :
  fst (classify_image Demo.photo (Demo.granted Demo.no_keyword)) = Raise (KeyError "keyword").
Proof. vm_compute. reflexivity. Qed.

(** ** The two buttons *)

Section Buttons.
Context `{Runtime}.


(** [classify_image] touches nothing but the event log. *)
Lemma classify_image_frame (img : image) (w : world) :
  let w' := snd (classify_image img w) in
  files w' = files w /\ clock w' = clock w /\ text_model w' = text_model w.
Proof.
  pose proof (get_access_token_frame w) as (Hf & Hc & Hm & Hp).
  unfold classify_image, response_json. run_M.
  destruct (get_access_token w) as [[tok|e] w1]; cbn [snd] in *; [|now repeat split].
  destruct (truthy tok); cbn [negb]; [|now repeat split].
  destruct (save_jpeg img) as [jpeg|e]; [|now repeat split].
  cbn [http_post log].
  destruct (http_post w1 _ _) as [a|e]; [|now repeat split].
  destruct (Z.eqb (status_code a) 200); [|now repeat split].
  destruct (json_loads (text a)) as [result|]; [|now repeat split].
  destruct (contains "result" result) as [[]|]; try now repeat split.
  destruct (getitem_key result "result") as [x|]; [|now repeat split].
  destruct (len_positive x) as [[]|]; try now repeat split.
  destruct (getitem_0 x) as [f|]; [|now repeat split].
  destruct (getitem_key f "keyword"); now repeat split.
Qed.


(** X9. When the classifier gives a label, [recommend_outfit_by_image]
    asks the text model once, with the prompt built from the weather, the
    occasion and that label, and returns the generated text with the
    label. *)
Theorem recommend_outfit_by_image_labelled (img : image) (weather occasion : string)
    (w : world) (r : response) (o : list (string * json)) (first : json)
    (rest : list json) (k : string) (response generated_first generated : json) :
  classifier_answer w img r -> status_code r = 200%Z ->
  json_loads (text r) = Some (JObj o) ->
  dict_get "result" o = Some (JArr (first :: rest)) ->
  getitem_key first "keyword" = Ok (JStr k) ->
  let prompt := "为" +:+ weather +:+ "天气的" +:+ occasion
                +:+ "场合，推荐一套包含" +:+ k +:+ "的穿搭：" in
  text_model w prompt 150 1 = Ok response ->
  getitem_0 response = Ok generated_first ->
  getitem_key generated_first "generated_text" = Ok generated ->
  fst (recommend_outfit_by_image img weather occasion w) = Ok (generated, JStr k) /\
  generations (events (snd (recommend_outfit_by_image img weather occasion w)))
    = (generations (events w) ++ [EvGenerate prompt 150 1])%list /\
  length (posts (events (snd (recommend_outfit_by_image img weather occasion w))))
    = S (length (posts (events w))).
Proof.
  intros Hans Hs Hbody Hres Hk prompt Hmodel Hfirst Htext.
  assert (Hlabel : fst (classify_image img w) = Ok (JStr k)).
  { rewrite (classify_image_answered img w r Hans), Hs, Hbody, Hres. exact Hk. }
  destruct Hans as (rt & body & tok & jpeg & Hget & Hs' & Hbody' & Htok & Htrue & Himg & _).
  pose proof (classify_image_granted_world img w rt body tok jpeg
                Hget Hs' Hbody' Htok Htrue Himg) as Hworld.
  unfold recommend_outfit_by_image. run_M.
  destruct (classify_image img w) as [label w1]. cbn [fst snd] in *. subst label w1.
  unfold image_prompt. rewrite py_format_str. fold prompt.
  cbn [text_model log]. rewrite Hmodel, Hfirst, Htext. cbn [fst snd events log].
  split; [reflexivity|]. unfold generations, posts.
  rewrite !List.filter_app. cbn. rewrite !app_nil_r. split; [reflexivity|].
  rewrite length_app. cbn. lia.
Qed.

(** X10. When the text model raises, [on_text_recommend] raises the same
    exception: the page shows no success and no history is written. *)
Theorem on_text_recommend_model_failure
    (user_id occasion weather selected_style : string) (w : world) (e : exn) :
  text_model w (outfit_prompt occasion weather (Some selected_style)) 150 1 = Raise e ->
  on_text_recommend user_id occasion weather selected_style w =
  (Raise e,
   log (EvGenerate (outfit_prompt occasion weather (Some selected_style)) 150 1) w).
Proof.
  intros Hmodel. unfold on_text_recommend, generate_outfit. run_M.
  rewrite Hmodel. reflexivity.
Qed.



End Buttons.

(** X9 on the answer whose one result is T-shirt. *)
Lemma recommend_outfit_by_image_labelled_witness :
  fst (recommend_outfit_by_image Demo.photo "炎热" "日常" (Demo.granted Demo.t_shirt))
    = Ok (JStr "为炎热天气的日常场合，推荐一套包含T-shirt的穿搭：白色T恤配牛仔裤",
          JStr "T-shirt") /\
  generations (events (snd (recommend_outfit_by_image Demo.photo "炎热" "日常"
                              (Demo.granted Demo.t_shirt))))
    = [EvGenerate "为炎热天气的日常场合，推荐一套包含T-shirt的穿搭：" 150 1] /\
  length (posts (events (snd (recommend_outfit_by_image Demo.photo "炎热" "日常"
                                (Demo.granted Demo.t_shirt)))))
    = 1.
Proof.
  apply (recommend_outfit_by_image_labelled Demo.photo "炎热" "日常"
           (Demo.granted Demo.t_shirt) Demo.t_shirt
           [("result", JArr [JObj [("keyword", JStr "T-shirt")]])]
           (JObj [("keyword", JStr "T-shirt")]) [] "T-shirt"
           (JArr [JObj [("generated_text",
              JStr "为炎热天气的日常场合，推荐一套包含T-shirt的穿搭：白色T恤配牛仔裤")]])
           (JObj [("generated_text",
              JStr "为炎热天气的日常场合，推荐一套包含T-shirt的穿搭：白色T恤配牛仔裤")])
           (JStr "为炎热天气的日常场合，推荐一套包含T-shirt的穿搭：白色T恤配牛仔裤")).
  - apply granted_answers.
  - reflexivity.
  - vm_compute. reflexivity.
  - reflexivity.
  - reflexivity.
  - reflexivity.
  - reflexivity.
  - reflexivity.
Defined.

(** X10 in the world whose model raises. *)
Lemma on_text_recommend_model_failure_witness :
  on_text_recommend "42" "日常" "炎热" "休闲" Demo.bare =
  (Raise RuntimeError,
   log (EvGenerate (outfit_prompt "日常" "炎热" (Some "休闲")) 150 1) Demo.bare).
Proof.
  apply (on_text_recommend_model_failure "42" "日常" "炎热" "休闲" Demo.bare
           RuntimeError).
  reflexivity.
Defined.



(** ** Runs of appends *)

Section RunsFacts.
Context `{Runtime}.


End RunsFacts.

Example run_calls_user_42 :
  fst (load_history "42" (snd (run_calls Demo.calls Demo.bare)))
  = Ok (JArr [call_entry Demo.first_call; call_entry Demo.third_call]).
Proof. vm_compute. reflexivity. Qed.

(** ** The history tab *)

(** Unfolds the plumbing of [Page]. *)
Ltac run_page :=
  cbv beta iota delta [page_bind page_ret page_lift draw].

Section TabFacts.
Context `{Runtime}.

Lemma show_entry_saved (history : json) (n i : nat) (c : save_call)
    (p : list widget) :
  py_len history = Ok n ->
  show_entry history i (call_entry c) p = (Ok tt, (p ++ entry_block (n - i) c)%list).
Proof.
  intros Hn. unfold show_entry, call_entry, history_entry, entry_block. run_page.
  rewrite Hn. cbn [getitem_key get_method dict_get String.eqb Ascii.eqb Bool.eqb].
  rewrite !py_format_str.
  destruct (truthy (call_clothing_type c)); cbn [app];
    rewrite <- ?app_assoc; reflexivity.
Qed.

Lemma show_entries_saved (history : json) (n : nat) (cs : list save_call) :
  py_len history = Ok n ->
  forall (i : nat) (p : list widget),
    show_entries history i (map call_entry cs) p =
    (Ok tt,
     (p ++ flat_map (fun kc => entry_block (fst kc) (snd kc))
             (countdown (n - i) cs))%list).
Proof.
  intros Hn. induction cs as [|c rest IH]; intros i p.
  - cbn. now rewrite app_nil_r.
  - cbn [map show_entries countdown flat_map fst snd]. run_page.
    rewrite (show_entry_saved history n i c p Hn), IH.
    rewrite <- app_assoc.
    replace (n - S i) with (n - i - 1) by lia. reflexivity.
Qed.


(** The page of a history made of written entries. *)
Lemma show_history_saved (cs : list save_call) :
  show_history (JArr (map call_entry cs)) [] =
  (Ok tt,
   match cs with
   | [] => [StInfo "你还没有任何穿搭记录，请先使用上方的功能生成推荐"]
   | _ => history_blocks cs
   end).
Proof.
  unfold show_history. destruct cs as [|c rest]; [reflexivity|].
  cbn [truthy map py_reversed]. run_page.
  change (call_entry c :: map call_entry rest) with (map call_entry (c :: rest)).
  rewrite <- map_rev.
  rewrite (show_entries_saved _ (length (c :: rest)) (rev (c :: rest))).
  - now rewrite Nat.sub_0_r.
  - cbn [py_len]. now rewrite length_map.
Qed.

Lemma history_tab_run (user_id : string) (w : world) :
  history_tab user_id w = (show_history (stored_history user_id w) [], w).
Proof. unfold history_tab. now rewrite load_history_run. Qed.

(** X14. When the user's history is made of entries that [save_history]
    wrote, the tab raises nothing and changes nothing; it shows the one
    information line for the empty history, and otherwise one expander
    per entry, the latest entry first, numbered from the number of
    entries down to one, each with occasion, weather, style, text and
    time, and the clothing line only where the clothing type is true
    (not null, not empty). *)
Theorem history_tab_saved (user_id : string) (w : world) (cs : list save_call) :
  fst (load_history user_id w) = Ok (JArr (map call_entry cs)) ->
  history_tab user_id w =
  ((Ok tt,
    match cs with
    | [] => [StInfo "你还没有任何穿搭记录，请先使用上方的功能生成推荐"]
    | _ => history_blocks cs
    end), w).
Proof.
  rewrite load_history_run. cbn [fst]. intros [= Hs].
  now rewrite history_tab_run, Hs, show_history_saved.
Qed.


(** X16. When the latest entry of the history is an object without
    [occasion], the tab draws the first expander's title and stops with
    [KeyError]: none of the earlier entries is shown. *)
Theorem history_tab_malformed_latest (user_id : string) (w : world)
    (l : list json) (o : list (string * json)) :
  fst (load_history user_id w) = Ok (JArr (l ++ [JObj o])) ->
  dict_get "occasion" o = None ->
  history_tab user_id w =
  ((Raise (KeyError "occasion"),
    [StExpander ("穿搭方案 #" +:+ dec (S (length l)))]), w).
Proof.
  rewrite load_history_run. cbn [fst]. intros [= Hs] Ho.
  rewrite history_tab_run, Hs. unfold show_history.
  assert (Ht : truthy (JArr (l ++ [JObj o])) = true) by (destruct l; reflexivity).
  rewrite Ht. cbn [py_reversed]. run_page. rewrite rev_unit.
  cbn [show_entries]. unfold show_entry. run_page.
  cbn [py_len getitem_key]. rewrite Ho, length_app. cbn [length app].
  now rewrite Nat.sub_0_r, Nat.add_1_r.
Qed.

End TabFacts.

(** X14 for user 42 after the three calls. *)
Lemma history_tab_saved_witness :
  history_tab "42" (snd (run_calls Demo.calls Demo.bare)) =
  ((Ok tt, history_blocks [Demo.first_call; Demo.third_call]),
   snd (run_calls Demo.calls Demo.bare)).
Proof.
  apply (history_tab_saved "42" (snd (run_calls Demo.calls Demo.bare))
           [Demo.first_call; Demo.third_call]).
  vm_compute. reflexivity.
Defined.

(** The page of those two entries: the later one on top, the clothing line
    only under it. *)
Example history_blocks_of_two :
  history_blocks [Demo.first_call; Demo.third_call] =
  [StExpander "穿搭方案 #2";
   StMarkdown "**场合**：派对"; StMarkdown "**天气**：温暖";
   StMarkdown "**基础服装**：高跟鞋";
   StMarkdown "**风格**：时尚"; StWrite (JStr "连衣裙");
   StMarkdown "🕒 2025-06-01 12:00:03";
   StExpander "穿搭方案 #1";
   StMarkdown "**场合**：日常"; StMarkdown "**天气**：炎热";
   StMarkdown "**风格**：休闲"; StWrite (JStr "T恤和短裤");
   StMarkdown "🕒 2025-06-01 12:00:01"].
Proof. vm_compute. reflexivity. Qed.


(** X16 for user 7, whose latest entry is an empty object. *)
Lemma history_tab_malformed_latest_witness :
  history_tab "7" Demo.broken =
  ((Raise (KeyError "occasion"), [StExpander ("穿搭方案 #" +:+ dec 2)]), Demo.broken).
Proof.
  apply (history_tab_malformed_latest "7" Demo.broken
           [history_entry "7" "工作" "寒冷" "正式" (JStr "大衣") (JStr "衬衫")
              "2025-06-01 12:00:02"] []).
  - vm_compute. reflexivity.
  - reflexivity.
Defined.

(** ** The user identifier *)

Module DecFacts.
Import Decimal.

Lemma digits_of_uint (d : uint) : all_digits (NilEmpty.string_of_uint d) = true.
Proof. induction d; cbn; auto. Qed.

Lemma length_of_uint (d : uint) :
  String.length (NilEmpty.string_of_uint d) = nb_digits d.
Proof. induction d; cbn; auto. Qed.

(** The last digit of a number written lowest digit first is not zero. *)
Fixpoint top_nonzero (d : uint) : Prop :=
  match d with
  | Nil => False
  | D0 d' => top_nonzero d'
  | D1 d' | D2 d' | D3 d' | D4 d' | D5 d' | D6 d' | D7 d' | D8 d' | D9 d' =>
      match d' with Nil => True | _ => top_nonzero d' end
  end.

Lemma top_nonzero_succ (d : uint) :
  top_nonzero d \/ d = Nil \/ d = D0 Nil -> top_nonzero (Little.succ d).
Proof.
  induction d as [|d IH|d IH|d IH|d IH|d IH|d IH|d IH|d IH|d IH|d IH];
    intros [Ht|[Hn|Hz]]; try discriminate; cbn in *; auto;
    try (destruct d; cbn in *; auto; fail).
  - injection Hz as ->. exact I.
  - apply IH. destruct d; cbn in *; auto.
Qed.

Lemma to_lu_top (n : nat) : n <> 0 -> top_nonzero (DecimalNat.Unsigned.to_lu n).
Proof.
  induction n as [|n IH]; [congruence|]. intros _.
  cbn [DecimalNat.Unsigned.to_lu]. apply top_nonzero_succ.
  destruct n; [right; right; reflexivity|left; apply IH; congruence].
Qed.

Lemma top_nonzero_bound (d : uint) :
  top_nonzero d -> 10 ^ (nb_digits d - 1) <= DecimalNat.Unsigned.of_lu d.
Proof.
  induction d as [|d IH|d IH|d IH|d IH|d IH|d IH|d IH|d IH|d IH|d IH];
    cbn [top_nonzero]; intros Ht; [contradiction|..];
    cbn [nb_digits DecimalNat.Unsigned.of_lu];
    rewrite Nat.sub_succ, Nat.sub_0_r;
    (destruct d as [|? |? |? |? |? |? |? |? |? |?] eqn:E;
     [cbn; try contradiction; lia|
      rewrite <- E in *; specialize (IH Ht);
      replace (nb_digits d) with (S (nb_digits d - 1)) by (rewrite E; cbn; lia);
      rewrite Nat.pow_succ_r'; lia ..]).
Qed.

Lemma dec_length (n k : nat) : 0 < k -> n < 10 ^ k -> String.length (dec n) <= k.
Proof.
  intros Hk Hn. unfold dec. rewrite DecimalNat.Unsigned.to_uint_alt.
  destruct n as [|n]; [cbn; lia|].
  pose proof (to_lu_top (S n) ltac:(congruence)) as Ht.
  pose proof (top_nonzero_bound _ Ht) as Hb.
  rewrite DecimalNat.Unsigned.of_to_lu in Hb.
  set (d := DecimalNat.Unsigned.to_lu (S n)) in *. clearbody d.
  assert (Hlen : String.length (NilZero.string_of_uint (rev d)) = nb_digits d).
  { unfold NilZero.string_of_uint.
    destruct (rev d) eqn:E; rewrite <- ?E;
      rewrite ?length_of_uint, ?DecimalFacts.nb_digits_rev; try reflexivity.
    apply (f_equal nb_digits) in E. rewrite DecimalFacts.nb_digits_rev in E.
    cbn in E. apply DecimalFacts.nb_digits_0 in E. subst d. contradiction. }
  rewrite Hlen.
  destruct (Nat.le_gt_cases (nb_digits d) k) as [|Hgt]; [assumption|].
  assert (10 ^ k <= 10 ^ (nb_digits d - 1)) by (apply Nat.pow_le_mono_r; lia).
  lia.
Qed.

Lemma dec_digits (n : nat) : all_digits (dec n) = true.
Proof.
  unfold dec, NilZero.string_of_uint.
  destruct (Nat.to_uint n) eqn:E; rewrite <- ?E; try apply digits_of_uint.
  reflexivity.
Qed.

Lemma dec_nonempty (n : nat) : dec n <> "".
Proof.
  unfold dec, NilZero.string_of_uint.
  destruct (Nat.to_uint n); cbn; discriminate.
Qed.

End DecFacts.

(** X17. When the session holds no identifier, the one made for it is a
    non-empty string of at most six decimal digits, whatever the hash. *)
Theorem session_user_id_fresh (session_state : gmap string string) (h : Z) :
  session_state !! "user_id" = None ->
  session_user_id session_state h <> "" /\
  all_digits (session_user_id session_state h) = true /\
  String.length (session_user_id session_state h) <= 6.
Proof.
  intros Hs. unfold session_user_id, new_user_id. rewrite Hs.
  split; [apply DecFacts.dec_nonempty|]. split; [apply DecFacts.dec_digits|].
  apply DecFacts.dec_length; [lia|].
  pose proof (Z.mod_pos_bound h 1000000 ltac:(lia)) as Hb.
  apply Nat2Z.inj_lt. rewrite Z2Nat.id by lia. rewrite Nat2Z.inj_pow.
  change (Z.of_nat 10 ^ Z.of_nat 6)%Z with 1000000%Z. lia.
Qed.

(** X17 for a new session and a negative hash. *)
Lemma session_user_id_fresh_witness :
  session_user_id ∅ (-7) <> "" /\
  all_digits (session_user_id ∅ (-7)) = true /\
  String.length (session_user_id ∅ (-7)) <= 6.
Proof.
  apply (session_user_id_fresh ∅ (-7)). reflexivity.
Defined.

(** A negative hash still gives an identifier below one million. *)
Example session_user_id_negative_hash : session_user_id ∅ (-7) = "999993".
Proof. vm_compute. reflexivity. Qed.

(** ** Exceptions of the classifier under the image button *)

Section ImageButtonFacts.
Context `{Runtime}.

Lemma generations_log (e : event) (w : world) :
  is_generate e = false ->
  generations (events (log e w)) = generations (events w).
Proof.
  intros He. cbn [events log]. unfold generations.
  rewrite List.filter_app. cbn. rewrite He. apply app_nil_r.
Qed.

Lemma get_access_token_no_generation (w : world) :
  generations (events (snd (get_access_token w))) = generations (events w).
Proof.
  unfold get_access_token, response_json. run_M.
  destruct (http_get w _) as [r|e]; cbn [snd]; [|now rewrite generations_log].
  destruct (Z.eqb (status_code r) 200); cbn [snd];
    [|now rewrite !generations_log].
  destruct (json_loads (text r)) as [body|]; cbn [snd];
    [|now rewrite generations_log].
  destruct (getitem_key body "access_token"); cbn [snd];
    now rewrite generations_log.
Qed.

(** [classify_image] never calls the text model. *)
Lemma classify_image_no_generation (img : image) (w : world) :
  generations (events (snd (classify_image img w))) = generations (events w).
Proof.
  pose proof (get_access_token_no_generation w) as Htok.
  unfold classify_image, response_json. run_M.
  destruct (get_access_token w) as [[tok|e] w1]; cbn [snd] in *; [|exact Htok].
  destruct (truthy tok); cbn [negb snd]; [|exact Htok].
  destruct (save_jpeg img) as [jpeg|e]; cbn [snd]; [|exact Htok].
  cbn [http_post log].
  assert (Hpost : forall u d,
            generations (events (log (EvPost u d) w1)) = generations (events w))
    by (intros u d; now rewrite generations_log).
  destruct (http_post w1 _ _) as [a|e]; cbn [snd]; [|apply Hpost].
  destruct (Z.eqb (status_code a) 200); cbn [snd]; [|apply Hpost].
  destruct (json_loads (text a)) as [result|]; cbn [snd]; [|apply Hpost].
  destruct (contains "result" result) as [[]|]; cbn [snd]; try apply Hpost.
  destruct (getitem_key result "result") as [x|]; cbn [snd]; [|apply Hpost].
  destruct (len_positive x) as [[]|]; cbn [snd]; try apply Hpost.
  destruct (getitem_0 x) as [f|]; cbn [snd]; [|apply Hpost].
  destruct (getitem_key f "keyword"); cbn [snd]; apply Hpost.
Qed.

(** X18. When [classify_image] raises, whatever the cause (the transport,
    a body that is not JSON, a missing member, the encoder),
    [on_image_recommend] raises the same exception: the text model is not
    called and no file is written. *)
Theorem on_image_recommend_classifier_exception (user_id : string) (img : image)
    (occasion_img weather_img selected_style : string) (w : world) (e : exn) :
  fst (classify_image img w) = Raise e ->
  let run := on_image_recommend user_id img occasion_img weather_img selected_style w in
  fst run = Raise e /\
  files (snd run) = files w /\
  generations (events (snd run)) = generations (events w).
Proof.
  intros He run. subst run.
  pose proof (classify_image_frame img w) as (Hf & _ & _).
  pose proof (classify_image_no_generation img w) as Hg.
  unfold on_image_recommend, recommend_outfit_by_image. run_M.
  destruct (classify_image img w) as [x w1]. cbn [fst snd] in *. subst x.
  cbn [fst snd]. auto.
Qed.

End ImageButtonFacts.

(** X18 in the world without a network. *)
Lemma on_image_recommend_classifier_exception_witness :
  fst (on_image_recommend "42" Demo.photo "日常" "炎热" "休闲" Demo.bare)
    = Raise ConnectionError /\
  files (snd (on_image_recommend "42" Demo.photo "日常" "炎热" "休闲" Demo.bare))
    = files Demo.bare /\
  generations
    (events (snd (on_image_recommend "42" Demo.photo "日常" "炎热" "休闲" Demo.bare)))
    = generations (events Demo.bare).
Proof.
  apply (on_image_recommend_classifier_exception "42" Demo.photo "日常" "炎热" "休闲"
           Demo.bare ConnectionError).
  reflexivity.
Defined.

Example utf8_chars_mixed : utf8_chars "日常a" = ["日"; "常"; "a"].
Proof. reflexivity. Qed.
